(** * Doc-Chat backend: a shallow embedding of [app.py]

    The Flask application keeps one uploaded document in two module-level
    variables ([uploaded_filename], [document_text]) and serves three
    routes: [/upload], [/process] and [/ask].  Handlers are embedded as
    computations in a state-and-exception monad over those two globals, an
    abstract outside world (the disk, the parsing libraries and the hosted
    completion service) and the list of calls made to the completion
    client.  Library calls ([werkzeug], [fitz], [docx], [pandas],
    [openai]) are fields of a record of externals; the code of [app.py]
    itself is transcribed function by function. *)

From Stdlib Require Import ZArith NArith QArith List String Ascii Bool Lia.
From Stdlib Require Import DecimalString.
From stdpp Require Import base decidable numbers list.

Import ListNotations.
Local Open Scope list_scope.
Local Open Scope Z_scope.

(* ===================================================================== *)
(** ** Python strings *)
(* ===================================================================== *)

(** A Python [str] is a sequence of Unicode code points; slicing, [len],
    [strip] and [split] all count code points. *)
Definition pychar := N.
Definition pystr := list pychar.

(** String literals of the source, written as Rocq strings. *)
Definition py (s : string) : pystr := map N_of_ascii (list_ascii_of_string s).
Arguments py s%_string.

(** ["\n"] *)
Definition nl : pychar := 10%N.

(** Truth value of a [str] in a condition: non-empty. *)
Definition truthy (s : pystr) : bool :=
  match s with [] => false | _ :: _ => true end.

(** [str.isspace] on one code point: CPython's [_PyUnicode_IsWhitespace]. *)
Definition isspace (c : pychar) : bool :=
  ((9 <=? c) && (c <=? 13) || (28 <=? c) && (c <=? 32)
   || (c =? 133) || (c =? 160) || (c =? 5760)
   || (8192 <=? c) && (c <=? 8202)
   || (c =? 8232) || (c =? 8233) || (c =? 8239) || (c =? 8287)
   || (c =? 12288))%N.

(** [s.lstrip()], [s.rstrip()], [s.strip()] without arguments. *)
Fixpoint lstrip (s : pystr) : pystr :=
  match s with
  | [] => []
  | c :: s' => if isspace c then lstrip s' else s
  end.

Definition rstrip (s : pystr) : pystr := rev (lstrip (rev s)).

Definition strip (s : pystr) : pystr := lstrip (rstrip s).

(** [s.split()] without arguments: maximal runs of non-whitespace, in
    order.  [w] is the word being scanned, most recent character first. *)
Fixpoint split_from (w : pystr) (s : pystr) : list pystr :=
  match s with
  | [] => match w with [] => [] | _ :: _ => [rev w] end
  | c :: s' =>
      if isspace c
      then match w with
           | [] => split_from [] s'
           | _ :: _ => rev w :: split_from [] s'
           end
      else split_from (c :: w) s'
  end.

Definition split (s : pystr) : list pystr := split_from [] s.

(** [s.endswith(x)] and [s.startswith(x)] *)
Definition endswith (s x : pystr) : bool := bool_decide (x `suffix_of` s).
Definition startswith (s x : pystr) : bool := bool_decide (x `prefix_of` s).

(** [sep.join(parts)] *)
Fixpoint join (sep : pystr) (parts : list pystr) : pystr :=
  match parts with
  | [] => []
  | [p] => p
  | p :: rest => p ++ sep ++ join sep rest
  end.

(** [str(n)] for a non-negative [int]. *)
Definition str_of_nat (n : nat) : pystr :=
  py (NilEmpty.string_of_uint (Nat.to_uint n)).

(** [s[:n]] *)
Definition slice_to (n : nat) (s : pystr) : pystr := take n s.

(** [os.path.join(a, b)] on a POSIX host. *)
Definition os_path_join (a b : pystr) : pystr :=
  if startswith b (py "/") then b
  else if negb (truthy a) || endswith a (py "/") then a ++ b
  else a ++ py "/" ++ b.

(* ===================================================================== *)
(** ** Values, exceptions, requests and responses *)
(* ===================================================================== *)

(** Exceptions, as far as the program tells them apart: [str(e)] is what
    handlers print; Flask maps an uncaught [HTTPException] to its status
    code and any other uncaught exception to 500. *)
Inductive PyExn :=
| Exception (msg : pystr)
| HTTPException (code : Z) (msg : pystr).

Definition exn_str (e : PyExn) : pystr :=
  match e with
  | Exception msg => msg
  | HTTPException _ msg => msg
  end.

Inductive Result (A : Type) :=
| Ok (a : A)
| Raise (e : PyExn).
Arguments Ok {A} a.
Arguments Raise {A} e.

(** JSON values as Python holds them after parsing: request bodies and
    [jsonify] payloads.  A number without fraction or exponent is an
    [int], any other number a [float]. *)
#[warnings="-register-all"]
Inductive json :=
| JNull
| JBool (b : bool)
| JInt (z : Z)
| JFloat (q : Q)
| JStr (s : pystr)
| JArr (l : list json)
| JObj (d : list (pystr * json)).

(** [type(v).__name__] *)
Definition type_name (v : json) : pystr :=
  match v with
  | JNull => py "NoneType"
  | JBool _ => py "bool"
  | JInt _ => py "int"
  | JFloat _ => py "float"
  | JStr _ => py "str"
  | JArr _ => py "list"
  | JObj _ => py "dict"
  end.

(** The text of the [AttributeError] for [v.attr] when [v] has no such
    attribute. *)
Definition no_attribute (v : json) (attr : pystr) : pystr :=
  py "'" ++ type_name v ++ py "' object has no attribute '" ++ attr
    ++ py "'".

(** Lookup in a [dict] / [MultiDict] held in insertion order. *)
Fixpoint dict_get {V : Type} (k : pystr) (d : list (pystr * V)) : option V :=
  match d with
  | [] => None
  | (k', v) :: d' => if bool_decide (k = k') then Some v else dict_get k d'
  end.

(** What a view function returns: [jsonify(body), status]. *)
Record Response := mkResponse {
  body : list (pystr * json);
  status : Z
}.

(** [werkzeug.datastructures.FileStorage] *)
Record FileStorage := mkFile {
  filename : pystr;
  stream : list Byte.byte
}.

(** The parts of [flask.request] the handlers read. *)
Record UploadRequest := mkUpload {
  files : list (pystr * FileStorage)
}.

(** [request.json] either yields the parsed body or raises (wrong content
    type, malformed body). *)
Record AskRequest := mkAsk {
  request_json : Result json
}.

(** Chat-completion messages and responses of the [openai] client. *)
Record Message := mkMessage {
  role : pystr;
  content : pystr
}.

Record Choice := mkChoice {
  message_content : option pystr
}.

Record ChatCompletion := mkCompletion {
  choices : list Choice
}.

(** The arguments of one call to [client.chat.completions.create]. *)
Record CompletionCall := mkCall {
  call_model : option pystr;
  call_messages : list Message;
  call_temperature : Q
}.

(* ===================================================================== *)
(** ** The outside world *)
(* ===================================================================== *)

(** Library and operating-system calls.  Each one that touches the disk or
    the network takes the world and returns the world. *)
Record Externals := mkExternals {
  World : Type;
  DataFrame : Type;
  Client : Type;
  (** [os.getenv] at import time, after [load_dotenv()] *)
  getenv : pystr -> option pystr;
  (** [werkzeug.utils.secure_filename] *)
  secure_filename : pystr -> pystr;
  (** [FileStorage.save(path)] *)
  file_save : FileStorage -> pystr -> World -> Result unit * World;
  (** [fitz.open(path)]: the pages, each with the outcome of
      [page.get_text("text")] *)
  fitz_open : pystr -> World -> Result (list (Result pystr)) * World;
  (** [docx.Document(path).paragraphs], each paragraph's [text] *)
  docx_Document : pystr -> World -> Result (list pystr) * World;
  (** [pd.read_csv(path, encoding="utf-8")] *)
  pd_read_csv : pystr -> World -> Result DataFrame * World;
  (** [pd.read_excel(path)] *)
  pd_read_excel : pystr -> World -> Result DataFrame * World;
  (** [df.to_string(index=...)] *)
  df_to_string : DataFrame -> bool -> Result pystr;
  (** [openai.AzureOpenAI(api_key=, azure_endpoint=, api_version=)] *)
  AzureOpenAI : option pystr -> option pystr -> option pystr -> Result Client;
  (** [client.chat.completions.create(model=, messages=, temperature=)]:
      one call, from the arguments to the response or the exception.  How
      often the library puts the call on the wire (it retries by default)
      is inside this function. *)
  chat_completions_create :
    Client -> CompletionCall -> World -> Result ChatCompletion * World
}.

(** The module-level variables of [app.py]. *)
Record Globals := mkGlobals {
  uploaded_filename : pystr;
  document_text : pystr
}.

(** Process state: the globals, the world, and the calls made so far to
    [client.chat.completions.create] (oldest first).  The log counts calls
    of the program, not transmissions of the client library. *)
Record St (E : Externals) := mkSt {
  globals : Globals;
  world : World E;
  sent : list CompletionCall
}.
Arguments mkSt {E} _ _ _.
Arguments globals {E} _.
Arguments world {E} _.
Arguments sent {E} _.

(* ===================================================================== *)
(** ** State-and-exception monad *)
(* ===================================================================== *)

(** A raised exception keeps the state reached so far, as in Python. *)
Definition M (E : Externals) (A : Type) : Type := St E -> Result A * St E.

Section Monad.
Context {E : Externals}.

Definition ret {A} (a : A) : M E A := fun st => (Ok a, st).

Definition bind {A B} (m : M E A) (k : A -> M E B) : M E B :=
  fun st =>
    match m st with
    | (Ok a, st') => k a st'
    | (Raise e, st') => (Raise e, st')
    end.

Definition raise {A} (e : PyExn) : M E A := fun st => (Raise e, st).

(** [try: m  except Exception as e: h e] *)
Definition try_except {A} (m : M E A) (h : PyExn -> M E A) : M E A :=
  fun st =>
    match m st with
    | (Ok a, st') => (Ok a, st')
    | (Raise e, st') => h e st'
    end.

(** A value or exception computed without touching the state. *)
Definition lift_result {A} (r : Result A) : M E A := fun st => (r, st).

(** An external call on the world. *)
Definition lift_world {A} (f : World E -> Result A * World E) : M E A :=
  fun st =>
    let (r, w) := f (world st) in
    (r, mkSt (globals st) w (sent st)).

Definition get_document_text : M E pystr :=
  fun st => (Ok (document_text (globals st)), st).

Definition set_document_text (t : pystr) : M E unit :=
  fun st =>
    (Ok tt, mkSt (mkGlobals (uploaded_filename (globals st)) t)
                 (world st) (sent st)).

Definition set_uploaded_filename (n : pystr) : M E unit :=
  fun st =>
    (Ok tt, mkSt (mkGlobals n (document_text (globals st)))
                 (world st) (sent st)).
End Monad.

#[global] Instance M_ret {E} : MRet (M E) := @ret E.
#[global] Instance M_bind {E} : MBind (M E) := fun A B k m => bind m k.
#[global] Instance M_throw {E} : MThrow PyExn (M E) := @raise E.

(* ===================================================================== *)
(** ** app.py *)
(* ===================================================================== *)

Section App.
Variable E : Externals.

(** Azure OpenAI configuration from [.env] *)
Definition AZURE_OPENAI_ENDPOINT := getenv E (py "AZURE_OPENAI_ENDPOINT").
Definition AZURE_OPENAI_KEY := getenv E (py "AZURE_OPENAI_KEY").
Definition AZURE_DEPLOYMENT_NAME := getenv E (py "AZURE_DEPLOYMENT_NAME").
Definition AZURE_API_VERSION := getenv E (py "AZURE_API_VERSION").

Definition UPLOAD_FOLDER : pystr := py "upload".

(** [jsonify({...}), status] *)
Definition jsonify (d : list (pystr * json)) (code : Z) : Response :=
  mkResponse d code.

(** Extract text from a PDF file: [text += page.get_text("text") + "\n"]
    for every page, starting from the empty [text]. *)
Fixpoint pdf_pages (text : pystr) (pages : list (Result pystr))
  : M E pystr :=
  match pages with
  | [] => mret text
  | page :: rest =>
      t ← lift_result page;
      pdf_pages (text ++ (t ++ [nl])) rest
  end.

Definition extract_text_from_pdf (file_path : pystr) : M E pystr :=
  pdf ← lift_world (fitz_open E file_path);
  pdf_pages [] pdf.

(** Extract text from a DOCX file. *)
Definition extract_text_from_docx (file_path : pystr) : M E pystr :=
  paragraphs ← lift_world (docx_Document E file_path);
  mret (join [nl] paragraphs).

(** Extract text from a CSV file. *)
Definition extract_text_from_csv (file_path : pystr) : M E pystr :=
  try_except
    (df ← lift_world (pd_read_csv E file_path);
     lift_result (df_to_string E df false))
    (fun e => mret (py "Error reading CSV: " ++ exn_str e)).

(** Extract text from an Excel file. *)
Definition extract_text_from_excel (file_path : pystr) : M E pystr :=
  try_except
    (df ← lift_world (pd_read_excel E file_path);
     lift_result (df_to_string E df false))
    (fun e => mret (py "Error reading Excel file: " ++ exn_str e)).

(** Extracts text from PDF, DOCX, CSV, or Excel. *)
Definition extract_text (file_path : pystr) : M E pystr :=
  if endswith file_path (py ".pdf") then extract_text_from_pdf file_path
  else if endswith file_path (py ".docx") then extract_text_from_docx file_path
  else if endswith file_path (py ".csv") then extract_text_from_csv file_path
  else if endswith file_path (py ".xlsx") || endswith file_path (py ".xls")
  then extract_text_from_excel file_path
  else mret [].

(** [/upload]: handles file upload and extracts text. *)
Definition upload_file (request : UploadRequest) : M E Response :=
  match dict_get (py "file") (files request) with
  | None => mret (jsonify [(py "message", JStr (py "No file uploaded"))] 400)
  | Some file =>
      if negb (truthy (filename file))
      then mret (jsonify [(py "message", JStr (py "No selected file"))] 400)
      else
        let filename := secure_filename E (filename file) in
        let file_path := os_path_join UPLOAD_FOLDER filename in
        try_except
          (lift_world (file_save E file file_path);;
           set_uploaded_filename filename;;
           text ← extract_text file_path;
           set_document_text text;;
           document_text ← get_document_text;
           if truthy (strip document_text)
           then mret (jsonify
                        [(py "message", JStr (py "File uploaded successfully"));
                         (py "redirect", JStr (py "process.html"))] 200)
           else mret (jsonify
                        [(py "message",
                          JStr (py "File uploaded but no readable content found"))]
                        400))
          (fun e =>
             mret (jsonify [(py "message", JStr (py "File upload failed"));
                            (py "error", JStr (exn_str e))] 500))
  end.

(** [/process]: processes the uploaded document and returns its analysis
    result. *)
Definition process_file : M E Response :=
  document_text ← get_document_text;
  if negb (truthy document_text)
  then mret (jsonify [(py "message", JStr (py "No document analyzed yet"))] 400)
  else
    let word_count := length (split document_text) in
    let analysis_result :=
      py "Analysis successful! Word count: " ++ str_of_nat word_count in
    mret (jsonify [(py "message", JStr analysis_result);
                   (py "content", JStr (slice_to 500 document_text))] 200).

(** The [messages] argument built in [query_gpt4]. *)
Definition prompt_messages (question context : pystr) : list Message :=
  [ mkMessage (py "system")
      (py "You are Financial assistant that answers questions based on the uploaded document.");
    mkMessage (py "user")
      (py "Document: " ++ slice_to 2000 context ++ py "..." ++ [nl; nl]
         ++ py "Question: " ++ question) ].

(** One call to [client.chat.completions.create]: the call is logged and
    handed to the library. *)
Definition completions_create (client : Client E) (call : CompletionCall)
  : M E ChatCompletion :=
  fun st =>
    let (r, w) := chat_completions_create E client call (world st) in
    (r, mkSt (globals st) w (sent st ++ [call])).

(** Query GPT-4 model using Azure OpenAI.  The result is the [content] of
    the first choice, which the client library types as optional. *)
Definition query_gpt4 (question context : pystr) : M E json :=
  try_except
    (client ← lift_result
                (AzureOpenAI E AZURE_OPENAI_KEY AZURE_OPENAI_ENDPOINT
                   AZURE_API_VERSION);
     response ← completions_create client
                  (mkCall AZURE_DEPLOYMENT_NAME
                     (prompt_messages question context) (1 # 2));
     match choices response with
     | [] => mthrow (Exception (py "list index out of range"))
     | c :: _ =>
         mret (match message_content c with
               | Some s => JStr s
               | None => JNull
               end)
     end)
    (fun e => mret (JStr (py "Error querying GPT-4: " ++ exn_str e))).

(** [data.get("question", default)] with the empty string as default *)
Definition data_get_question (data : json) : M E json :=
  match data with
  | JObj d =>
      mret (match dict_get (py "question") d with
            | Some v => v
            | None => JStr []
            end)
  | _ => mthrow (Exception (no_attribute data (py "get")))
  end.

(** [(...).strip()] on whatever [data.get] returned *)
Definition value_strip (v : json) : M E pystr :=
  match v with
  | JStr s => mret (strip s)
  | _ => mthrow (Exception (no_attribute v (py "strip")))
  end.

(** [/ask]: answers user questions based on extracted document content. *)
Definition ask_question (request : AskRequest) : M E Response :=
  document_text ← get_document_text;
  if negb (truthy document_text)
  then mret (jsonify [(py "message", JStr (py "No document analyzed yet"))] 400)
  else
    data ← lift_result (request_json request);
    v ← data_get_question data;
    question ← value_strip v;
    if negb (truthy question)
    then mret (jsonify [(py "message", JStr (py "Please ask a question"))] 400)
    else
      answer ← query_gpt4 question document_text;
      mret (jsonify [(py "question", JStr question); (py "answer", answer)] 200).

(** Flask's dispatch of one request: the status line the client sees. *)
Definition http_status (r : Result Response) : Z :=
  match r with
  | Ok resp => status resp
  | Raise (HTTPException code _) => code
  | Raise (Exception _) => 500
  end.

(** The three routes. *)
Inductive Request :=
| POST_upload (request : UploadRequest)
| POST_process
| POST_ask (request : AskRequest).

Definition handle (r : Request) : M E Response :=
  match r with
  | POST_upload request => upload_file request
  | POST_process => process_file
  | POST_ask request => ask_question request
  end.

(** Requests are served one at a time, in order. *)
Fixpoint serve (rs : list Request) (st : St E) : list (Result Response) * St E :=
  match rs with
  | [] => ([], st)
  | r :: rs' =>
      let (out, st') := handle r st in
      let (outs, st'') := serve rs' st' in
      (out :: outs, st'')
  end.

(** State of a freshly started process. *)
Definition initial (w : World E) : St E := mkSt (mkGlobals [] []) w [].
End App.

(* ===================================================================== *)
(** ** Vocabulary of the statements *)
(* ===================================================================== *)

(** The number of whitespace-delimited tokens, counted where they begin: a
    non-whitespace character at the start of the text or right after a
    whitespace character.  [after_space] tells what precedes [s]. *)
Fixpoint token_starts (after_space : bool) (s : pystr) : nat :=
  match s with
  | [] => 0%nat
  | c :: s' =>
      if isspace c then token_starts true s'
      else ((if after_space then 1 else 0) + token_starts false s')%nat
  end.

Definition token_count (s : pystr) : nat := token_starts true s.

Section Blindness.
Context {E : Externals}.

(** From a given world and log, [m] returns the same result, world and
    log whatever the globals are, and hands the globals back as they
    were. *)
Definition globals_blind {A} (m : M E A) : Prop :=
  forall w s, exists r w' s', forall g, m (mkSt g w s) = (r, mkSt g w' s').
End Blindness.

Section UploadVocabulary.
Variable E : Externals.

Definition upload_name (file : FileStorage) : pystr :=
  secure_filename E (filename file).

Definition upload_path (file : FileStorage) : pystr :=
  os_path_join UPLOAD_FOLDER (upload_name file).

(** The state in which [extract_text] runs: the file is on disk and the
    name has been stored. *)
Definition after_save (file : FileStorage) (st : St E) (w : World E) : St E :=
  mkSt (mkGlobals (upload_name file) (document_text (globals st))) w (sent st).

Definition upload_failed (e : PyExn) : Response :=
  jsonify [(py "message", JStr (py "File upload failed"));
           (py "error", JStr (exn_str e))] 500.

Definition upload_succeeded : Response :=
  jsonify [(py "message", JStr (py "File uploaded successfully"));
           (py "redirect", JStr (py "process.html"))] 200.

Definition upload_unreadable : Response :=
  jsonify [(py "message",
            JStr (py "File uploaded but no readable content found"))] 400.
End UploadVocabulary.

(** The text an upload gets out of [extract_text], when it gets that far. *)
Definition extracted_text (E : Externals) (request : UploadRequest) (st : St E)
  : option pystr :=
  match dict_get (py "file") (files request) with
  | None => None
  | Some file =>
      if truthy (filename file) then
        match file_save E file (upload_path E file) (world st) with
        | (Raise _, _) => None
        | (Ok _, w) =>
            match fst (extract_text E (upload_path E file)
                         (after_save E file st w)) with
            | Raise _ => None
            | Ok text => Some text
            end
        end
      else None
  end.

(** No upload in the run [rs] from [st] extracts a non-empty text. *)
Fixpoint extracts_nothing (E : Externals) (rs : list Request) (st : St E)
  : bool :=
  match rs with
  | [] => true
  | r :: rs' =>
      match r with
      | POST_upload request =>
          match extracted_text E request st with
          | Some (_ :: _) => false
          | _ => true
          end
      | _ => true
      end
      && extracts_nothing E rs' (snd (handle E r st))
  end.

Definition no_document : Response :=
  jsonify [(py "message", JStr (py "No document analyzed yet"))] 400.

(** Every upload in the run [rs] from [st] leaves a non-empty text in
    place: none of them extracts the empty string. *)
Fixpoint keeps_document (E : Externals) (rs : list Request) (st : St E)
  : bool :=
  match rs with
  | [] => true
  | r :: rs' =>
      match r with
      | POST_upload request =>
          match extracted_text E request st with
          | Some [] => false
          | _ => true
          end
      | _ => true
      end
      && keeps_document E rs' (snd (handle E r st))
  end.

(** The answer of [/process] for a stored text, with the word count taken
    as the number of whitespace-delimited tokens. *)
Definition analysis (text : pystr) : Response :=
  jsonify [(py "message",
            JStr (py "Analysis successful! Word count: "
                    ++ str_of_nat (token_count text)));
           (py "content", JStr (take 500 text))] 200.

Definition answered (question : pystr) (answer : json) : Response :=
  jsonify [(py "question", JStr question); (py "answer", answer)] 200.

Definition please_ask : Response :=
  jsonify [(py "message", JStr (py "Please ask a question"))] 400.

(** The endings [extract_text] tests, in its order. *)
Definition SUPPORTED : list pystr :=
  [py ".pdf"; py ".docx"; py ".csv"; py ".xlsx"; py ".xls"].

(** ASCII lower-casing of one code point and of a string. *)
Definition ascii_lower (c : pychar) : pychar :=
  if ((65 <=? c) && (c <=? 90))%N then (c + 32)%N else c.

Definition lower (s : pystr) : pystr := map ascii_lower s.

(** [v] is an upper- or mixed-case spelling of a supported ending: it
    lower-cases to one, and is not one itself. *)
Definition case_variant (v : pystr) : Prop :=
  lower v ∈ SUPPORTED /\ v <> lower v.

(** A tabular file whose parse fails: the path ends in [.csv], [.xlsx] or
    [.xls], the matching pandas reader raises, and [message] is what the
    extractor makes of it. *)
Inductive parse_fails (E : Externals) (file_path : pystr) (w : World E)
  : pystr -> World E -> Prop :=
| csv_fails e w' :
    endswith file_path (py ".csv") = true ->
    pd_read_csv E file_path w = (Raise e, w') ->
    parse_fails E file_path w (py "Error reading CSV: " ++ exn_str e) w'
| excel_fails e w' :
    endswith file_path (py ".xlsx") = true
    \/ endswith file_path (py ".xls") = true ->
    pd_read_excel E file_path w = (Raise e, w') ->
    parse_fails E file_path w
      (py "Error reading Excel file: " ++ exn_str e) w'.

(** The call [query_gpt4] makes for a question and a context. *)
Definition completion_call (E : Externals) (question context : pystr)
  : CompletionCall :=
  mkCall (AZURE_DEPLOYMENT_NAME E) (prompt_messages question context) (1 # 2).

Definition make_client (E : Externals) : Result (Client E) :=
  AzureOpenAI E (AZURE_OPENAI_KEY E) (AZURE_OPENAI_ENDPOINT E)
    (AZURE_API_VERSION E).

(** The completion-service call fails with [e]: the client cannot be
    built, the request raises, or the response has no choice to read. *)
Inductive completion_fails (E : Externals) (question context : pystr)
    (w : World E) : PyExn -> Prop :=
| client_fails e :
    make_client E = Raise e ->
    completion_fails E question context w e
| request_fails client e w' :
    make_client E = Ok client ->
    chat_completions_create E client (completion_call E question context) w
    = (Raise e, w') ->
    completion_fails E question context w e
| response_malformed client response w' :
    make_client E = Ok client ->
    chat_completions_create E client (completion_call E question context) w
    = (Ok response, w') ->
    choices response = [] ->
    completion_fails E question context w
      (Exception (py "list index out of range")).

Definition error_answer (e : PyExn) : json :=
  JStr (py "Error querying GPT-4: " ++ exn_str e).

(** Some character of [s] is not whitespace. *)
Definition readable (s : pystr) : bool :=
  existsb (fun c => negb (isspace c)) s.

(** The text layers of the pages of a PDF when every page can be read, and
    otherwise the exception of the first page that cannot. *)
Fixpoint page_texts (pages : list (Result pystr)) : Result (list pystr) :=
  match pages with
  | [] => Ok []
  | Raise e :: _ => Raise e
  | Ok t :: rest =>
      match page_texts rest with
      | Ok ts => Ok (t :: ts)
      | Raise e => Raise e
      end
  end.

(** Page texts in page order, each closed by a newline. *)
Definition pdf_text (ts : list pystr) : pystr :=
  concat (map (fun t => t ++ [nl]) ts).

(** The extractor that belongs to a supported ending. *)
Definition extractor_for (E : Externals) (x : pystr) : pystr -> M E pystr :=
  if bool_decide (x = py ".pdf") then extract_text_from_pdf E
  else if bool_decide (x = py ".docx") then extract_text_from_docx E
  else if bool_decide (x = py ".csv") then extract_text_from_csv E
  else extract_text_from_excel E.

(** A parsed body [ask_question] can work with: a JSON object whose
    ["question"], when present, is a string. *)
Definition usable_body (v : json) : bool :=
  match v with
  | JObj d =>
      match dict_get (py "question") d with
      | None | Some (JStr _) => true
      | Some _ => false
      end
  | _ => false
  end.

Definition is_upload (r : Request) : bool :=
  match r with
  | POST_upload _ => true
  | _ => false
  end.

Definition is_ask (r : Request) : bool :=
  match r with
  | POST_ask _ => true
  | _ => false
  end.

(** The exception an upload runs into inside its [try] block, if any:
    the one [file.save] raises, or else the one [extract_text] raises. *)
Definition upload_exception (E : Externals) (request : UploadRequest)
    (st : St E) : option PyExn :=
  match dict_get (py "file") (files request) with
  | None => None
  | Some file =>
      if truthy (filename file) then
        match file_save E file (upload_path E file) (world st) with
        | (Raise e, _) => Some e
        | (Ok _, w) =>
            match fst (extract_text E (upload_path E file)
                         (after_save E file st w)) with
            | Raise e => Some e
            | Ok _ => None
            end
        end
      else None
  end.

(** The state [st] with another file name in the store. *)
Definition with_name {E : Externals} (n : pystr) (st : St E) : St E :=
  mkSt (mkGlobals n (document_text (globals st))) (world st) (sent st).

(** Two states agree on everything but the stored file name. *)
Definition same_but_name {E : Externals} (st1 st2 : St E) : Prop :=
  document_text (globals st1) = document_text (globals st2)
  /\ world st1 = world st2 /\ sent st1 = sent st2.

(* ===================================================================== *)
(** ** A small world for concrete runs *)
(* ===================================================================== *)

(** A test double for the externals: the disk is a list of saved files, and
    every parser reads a file's bytes as its text (one page, one paragraph,
    one rendered table).  An empty file is a table pandas cannot parse;
    credentials are not configured, so the client cannot be built. *)
Module Demo.
Definition Disk := list (pystr * list Byte.byte).

Definition decode (bs : list Byte.byte) : pystr := map Byte.to_N bs.

Definition read (path : pystr) (d : Disk) : Result (list Byte.byte) :=
  match dict_get path d with
  | Some bs => Ok bs
  | None => Raise (Exception (py "No such file or directory"))
  end.

Definition save (f : FileStorage) (path : pystr) (d : Disk)
  : Result unit * Disk :=
  if endswith path (py "/")
  then (Raise (Exception (py "Is a directory")), d)
  else (Ok tt, (path, stream f) :: d).

Definition open_pdf (path : pystr) (d : Disk)
  : Result (list (Result pystr)) * Disk :=
  match read path d with
  | Ok bs => (Ok [Ok (decode bs)], d)
  | Raise e => (Raise e, d)
  end.

Definition open_docx (path : pystr) (d : Disk)
  : Result (list pystr) * Disk :=
  match read path d with
  | Ok bs => (Ok [decode bs], d)
  | Raise e => (Raise e, d)
  end.

Definition read_table (path : pystr) (d : Disk) : Result pystr * Disk :=
  match read path d with
  | Ok [] => (Raise (Exception (py "No columns to parse from file")), d)
  | Ok bs => (Ok (decode bs), d)
  | Raise e => (Raise e, d)
  end.

Definition make_client (key endpoint version : option pystr) : Result unit :=
  match key with
  | Some _ => Ok tt
  | None => Raise (Exception (py "Missing credentials"))
  end.

Definition complete (c : unit) (call : CompletionCall) (d : Disk)
  : Result ChatCompletion * Disk :=
  (Raise (Exception (py "Connection error.")), d).

(** Names made of letters, digits, dots and dashes pass through
    [secure_filename] as they are; the runs below use only such names. *)
Definition env : Externals :=
  {| World := Disk;
     DataFrame := pystr;
     Client := unit;
     getenv := fun _ => None;
     secure_filename := fun n => n;
     file_save := save;
     fitz_open := open_pdf;
     docx_Document := open_docx;
     pd_read_csv := read_table;
     pd_read_excel := read_table;
     df_to_string := fun df _ => Ok df;
     AzureOpenAI := make_client;
     chat_completions_create := complete |}.

(** The same externals with credentials configured. *)
Definition env_with_key : Externals :=
  {| World := Disk;
     DataFrame := pystr;
     Client := unit;
     getenv := fun _ => Some (py "configured");
     secure_filename := fun n => n;
     file_save := save;
     fitz_open := open_pdf;
     docx_Document := open_docx;
     pd_read_csv := read_table;
     pd_read_excel := read_table;
     df_to_string := fun df _ => Ok df;
     AzureOpenAI := make_client;
     chat_completions_create := complete |}.

Definition upload (name content : string) : UploadRequest :=
  mkUpload [(py "file", mkFile (py name) (list_byte_of_string content))].

Definition ask (question : string) : AskRequest :=
  mkAsk (Ok (JObj [(py "question", JStr (py question))])).

(** A store that already holds a document. *)
Definition holding (name text : string) : St env :=
  @mkSt env (mkGlobals (py name) (py text)) ([] : Disk) [].
(** Externals whose completion service answers every request with one
    choice that repeats the user message. *)
Definition echo (c : unit) (call : CompletionCall) (d : Disk)
  : Result ChatCompletion * Disk :=
  (Ok (mkCompletion
         [mkChoice (Some (concat (map content (drop 1 (call_messages call)))))]),
   d).

Definition env_answering : Externals :=
  {| World := Disk;
     DataFrame := pystr;
     Client := unit;
     getenv := fun _ => Some (py "configured");
     secure_filename := fun n => n;
     file_save := save;
     fitz_open := open_pdf;
     docx_Document := open_docx;
     pd_read_csv := read_table;
     pd_read_excel := read_table;
     df_to_string := fun df _ => Ok df;
     AzureOpenAI := make_client;
     chat_completions_create := echo |}.
End Demo.

(* ===================================================================== *)
(** ** Strings: basic facts *)
(* ===================================================================== *)

Lemma py_cons (a : ascii) (s : string) :
  py (String a s) = N_of_ascii a :: py s.
Proof. reflexivity. Qed.

Lemma truthy_true (s : pystr) : truthy s = true <-> s <> [].
Proof. destruct s; simpl; split; congruence. Qed.

Lemma lstrip_snoc_nonspace (s : pystr) (c : pychar) :
  isspace c = false -> exists s', lstrip (s ++ [c]) = s' ++ [c].
Proof.
  intros Hc. induction s as [|d s IH]; simpl.
  - rewrite Hc. by exists [].
  - destruct (isspace d); [exact IH|]. by exists (d :: s).
Qed.

(** A string that starts with a non-whitespace character survives
    [strip]. *)
Lemma strip_cons_nonspace (c : pychar) (s : pystr) :
  isspace c = false -> truthy (strip (c :: s)) = true.
Proof.
  intros Hc. unfold strip, rstrip. simpl rev.
  destruct (lstrip_snoc_nonspace (rev s) c Hc) as [s' ->].
  rewrite rev_app_distr. simpl. by rewrite Hc.
Qed.

Lemma strip_truthy (s : pystr) : truthy (strip s) = true -> truthy s = true.
Proof. destruct s; [vm_compute; congruence | done]. Qed.

Lemma split_from_length (w s : pystr) :
  length (split_from w s)
  = ((if truthy w then 1 else 0) + token_starts (negb (truthy w)) s)%nat.
Proof.
  revert w. induction s as [|c s IH]; intros w; simpl.
  - destruct w; simpl; lia.
  - destruct (isspace c).
    + destruct w; simpl; rewrite IH; simpl; lia.
    + rewrite IH. destruct w; simpl; lia.
Qed.

(** [len(s.split())] is the number of whitespace-delimited tokens. *)
Lemma split_length (s : pystr) : length (split s) = token_count s.
Proof. unfold split, token_count. by rewrite split_from_length. Qed.


Lemma endswith_suffix (s x : pystr) : endswith s x = true <-> x `suffix_of` s.
Proof. unfold endswith. by rewrite bool_decide_eq_true. Qed.

(** Of two endings of one string, the shorter ends the longer. *)
Lemma endswith_shorter (s x y : pystr) :
  endswith s x = true -> endswith s y = true ->
  (length x <= length y)%nat -> x `suffix_of` y.
Proof.
  rewrite !endswith_suffix. intros Hx Hy Hlen.
  destruct (suffix_weak_total _ _ _ Hx Hy) as [H|H]; [done|].
  assert (y = x) as -> by (apply suffix_length_eq; [done | lia]).
  done.
Qed.

(* ===================================================================== *)
(** ** Computations that neither read nor write the globals *)
(* ===================================================================== *)

Ltac unfold_monad :=
  unfold mbind, M_bind, mret, M_ret, mthrow, M_throw, bind, ret, raise,
    try_except, lift_world, lift_result, get_document_text,
    set_document_text, set_uploaded_filename in *.

Section Blind.
Context {E : Externals}.

Lemma blind_ret {A} (a : A) : globals_blind (mret a : M E A).
Proof. intros w s. by exists (Ok a), w, s. Qed.

Lemma blind_throw {A} (e : PyExn) : globals_blind (mthrow e : M E A).
Proof. intros w s. by exists (Raise e), w, s. Qed.

Lemma blind_lift_result {A} (r : Result A) :
  globals_blind (lift_result r : M E A).
Proof. intros w s. by exists r, w, s. Qed.

Lemma blind_lift_world {A} (f : World E -> Result A * World E) :
  globals_blind (lift_world f : M E A).
Proof.
  intros w s. unfold lift_world. simpl.
  destruct (f w) as [r w'] eqn:Hf. by exists r, w', s.
Qed.

Lemma blind_bind {A B} (m : M E A) (k : A -> M E B) :
  globals_blind m -> (forall a, globals_blind (k a)) ->
  globals_blind (m ≫= k).
Proof.
  intros Hm Hk w s. unfold_monad.
  destruct (Hm w s) as (r & w1 & s1 & H1).
  destruct r as [a|e].
  - destruct (Hk a w1 s1) as (r2 & w2 & s2 & H2).
    exists r2, w2, s2. intros g. by rewrite H1, H2.
  - exists (Raise e), w1, s1. intros g. by rewrite H1.
Qed.

Lemma blind_try_except {A} (m : M E A) (h : PyExn -> M E A) :
  globals_blind m -> (forall e, globals_blind (h e)) ->
  globals_blind (try_except m h).
Proof.
  intros Hm Hh w s. unfold_monad.
  destruct (Hm w s) as (r & w1 & s1 & H1).
  destruct r as [a|e].
  - exists (Ok a), w1, s1. intros g. by rewrite H1.
  - destruct (Hh e w1 s1) as (r2 & w2 & s2 & H2).
    exists r2, w2, s2. intros g. by rewrite H1, H2.
Qed.

(** What blindness gives at a state. *)
Lemma blind_run {A} (m : M E A) (st : St E) :
  globals_blind m ->
  exists r w' s',
    m st = (r, mkSt (globals st) w' s') /\
    forall g, m (mkSt g (world st) (sent st)) = (r, mkSt g w' s').
Proof.
  intros Hm. destruct (Hm (world st) (sent st)) as (r & w' & s' & H).
  exists r, w', s'. split; [|done]. rewrite <- H. by destruct st.
Qed.
End Blind.

Create HintDb blind.
#[global] Hint Resolve blind_ret blind_throw blind_lift_result
  blind_lift_world : blind.

Section AppFacts.
Variable E : Externals.

Lemma blind_pdf_pages (pages : list (Result pystr)) (text : pystr) :
  globals_blind (pdf_pages E text pages).
Proof.
  revert text. induction pages as [|p pages IH]; intros text; simpl.
  - auto with blind.
  - apply blind_bind; auto with blind.
Qed.

Lemma blind_extract_text (file_path : pystr) :
  globals_blind (extract_text E file_path).
Proof.
  unfold extract_text, extract_text_from_pdf, extract_text_from_docx,
    extract_text_from_csv, extract_text_from_excel.
  repeat case_match;
    repeat first [ apply blind_bind; intros
                 | apply blind_try_except; intros
                 | apply blind_pdf_pages
                 | solve [auto with blind] ].
Qed.

Lemma blind_completions_create (c : Client E) (call : CompletionCall) :
  globals_blind (completions_create E c call).
Proof.
  intros w s. unfold completions_create. simpl.
  destruct (chat_completions_create E c call w) as [r w'].
  by exists r, w', (s ++ [call]).
Qed.

Lemma blind_query_gpt4 (question context : pystr) :
  globals_blind (query_gpt4 E question context).
Proof.
  unfold query_gpt4.
  apply blind_try_except; [|auto with blind].
  apply blind_bind; [auto with blind|]. intros client.
  apply blind_bind; [apply blind_completions_create|]. intros response.
  destruct (choices response); auto with blind.
Qed.

(** The QA client hands every failure back as text. *)
Lemma query_gpt4_total (question context : pystr) (st : St E) :
  exists answer st', query_gpt4 E question context st = (Ok answer, st').
Proof.
  unfold query_gpt4, completions_create. unfold_monad.
  destruct (AzureOpenAI E _ _ _) as [client|e]; [|eauto].
  destruct (chat_completions_create E client _ _) as [[response|e] w]; [|eauto].
  destruct (choices response); eauto.
Qed.

Lemma process_file_state (st : St E) : snd (process_file E st) = st.
Proof. unfold process_file. unfold_monad. by case_match. Qed.

Lemma ask_question_globals (request : AskRequest) (st : St E) :
  globals (snd (ask_question E request st)) = globals st.
Proof.
  unfold ask_question, data_get_question, value_strip. unfold_monad.
  repeat (case_match; simplify_eq/=; try done).
  all: match goal with
       | H : query_gpt4 E ?q ?c ?st = _ |- _ =>
           destruct (blind_run (query_gpt4 E q c) st (blind_query_gpt4 q c))
             as (r & w' & s' & Hrun & _);
           rewrite Hrun in H; by simplify_eq
       end.
Qed.
End AppFacts.

Section UploadFacts.
Variable E : Externals.

(** The run of [upload_file] once a named file is present. *)
Lemma upload_file_run (request : UploadRequest) (st : St E) (file : FileStorage) :
  dict_get (py "file") (files request) = Some file ->
  filename file <> [] ->
  upload_file E request st =
    match file_save E file (upload_path E file) (world st) with
    | (Raise e, w) => (Ok (upload_failed e), mkSt (globals st) w (sent st))
    | (Ok _, w) =>
        match extract_text E (upload_path E file) (after_save E file st w) with
        | (Raise e, st') => (Ok (upload_failed e), st')
        | (Ok text, st') =>
            (Ok (if truthy (strip text) then upload_succeeded
                 else upload_unreadable),
             mkSt (mkGlobals (upload_name E file) text) (world st') (sent st'))
        end
    end.
Proof.
  intros Hfile Hname. unfold upload_file. rewrite Hfile.
  apply truthy_true in Hname. rewrite Hname. simpl.
  unfold_monad. simpl.
  fold (upload_name E file). fold (upload_path E file).
  destruct (file_save E file (upload_path E file) (world st)) as [[[]|e] w];
    [|done].
  destruct (blind_run (extract_text E (upload_path E file)) (after_save E file st w)
              (blind_extract_text E _)) as (r & w' & s' & Hrun & _).
  unfold after_save in *. simpl in *. rewrite Hrun.
  destruct r as [text|e]; [|done]. simpl.
  by destruct (truthy (strip text)).
Qed.

(** The stored text after an upload: the extracted one, if the upload
    got that far, and the old one otherwise. *)
Lemma upload_file_text (request : UploadRequest) (st : St E) :
  document_text (globals (snd (upload_file E request st)))
  = match extracted_text E request st with
    | Some text => text
    | None => document_text (globals st)
    end.
Proof.
  unfold extracted_text.
  destruct (dict_get (py "file") (files request)) as [file|] eqn:Hfile;
    [destruct (truthy (filename file)) eqn:Hname|].
  - rewrite (upload_file_run request st file Hfile)
      by (by apply truthy_true).
    destruct (file_save E file (upload_path E file) (world st))
      as [[[]|e] w]; [|done].
    destruct (blind_run (extract_text E (upload_path E file))
                (after_save E file st w) (blind_extract_text E _))
      as (r & w' & s' & Hrun & _).
    rewrite Hrun. simpl. by destruct r.
  - unfold upload_file. by rewrite Hfile, Hname.
  - unfold upload_file. by rewrite Hfile.
Qed.
End UploadFacts.

(* ===================================================================== *)
(** ** Upload and the Document Store *)
(* ===================================================================== *)

(** C1, as stated, fails: with "report.csv" and its text in the store, an
    upload of "notes.txt" (unsupported extension, so the extracted text is
    empty) is answered 400 and has overwritten both fields of the store. *)
Lemma upload_rejected_overwrites_store :
  let before := Demo.holding "report.csv" "Revenue: 100" in
  let out := upload_file Demo.env (Demo.upload "notes.txt" "plain text") before in
  http_status (fst out) = 400 /\
  http_status (fst out) <> 200 /\
  globals (snd out) = mkGlobals (py "notes.txt") [] /\
  globals (snd out) <> globals before.
Proof. vm_compute. repeat split; congruence. Qed.

(** C1 (amended): [upload_file] always answers, and what it does to the
    store depends on how far it got.  Without a file or with an empty file
    name it answers 400 and leaves the state as it was.  When saving the
    file raises it answers 500 and leaves both fields as they were.  Once
    the file is saved the file-name field holds the sanitized name: when
    extraction raises the answer is 500 and the stored text is the old one;
    when extraction returns a text, that text is stored, and the answer is
    200 if it has a non-whitespace character and 400 otherwise. *)
Theorem upload_file_store_effect (E : Externals) (request : UploadRequest)
    (st : St E) :
  exists resp st',
    upload_file E request st = (Ok resp, st') /\
    match dict_get (py "file") (files request) with
    | None => status resp = 400 /\ st' = st
    | Some file =>
        if truthy (filename file) then
          match file_save E file (upload_path E file) (world st) with
          | (Raise e, _) => status resp = 500 /\ globals st' = globals st
          | (Ok _, w) =>
              match fst (extract_text E (upload_path E file)
                           (after_save E file st w)) with
              | Raise e =>
                  status resp = 500 /\
                  globals st' = mkGlobals (upload_name E file)
                                          (document_text (globals st))
              | Ok text =>
                  status resp = (if truthy (strip text) then 200 else 400) /\
                  globals st' = mkGlobals (upload_name E file) text
              end
          end
        else status resp = 400 /\ st' = st
    end.
Proof.
  destruct (dict_get (py "file") (files request)) as [file|] eqn:Hfile.
  - destruct (truthy (filename file)) eqn:Hname.
    + rewrite (upload_file_run E request st file Hfile)
        by (by apply truthy_true).
      destruct (file_save E file (upload_path E file) (world st))
        as [[[]|e] w]; [|by eauto].
      destruct (blind_run (extract_text E (upload_path E file))
                  (after_save E file st w) (blind_extract_text E _))
        as (r & w' & s' & Hrun & _).
      rewrite Hrun. simpl. destruct r as [text|e]; [|by eauto].
      do 2 eexists. split; [done|]. by destruct (truthy (strip text)).
    + unfold upload_file. rewrite Hfile, Hname. simpl. by eauto.
  - unfold upload_file. rewrite Hfile. by eauto.
Qed.

Lemma serve_cons (E : Externals) (r : Request) (rs : list Request) (st : St E) :
  snd (serve E (r :: rs) st) = snd (serve E rs (snd (handle E r st))).
Proof.
  simpl. destruct (handle E r st) as [out st1]. simpl.
  by destruct (serve E rs st1).
Qed.

Lemma handle_text_empty (E : Externals) (r : Request) (st : St E) :
  document_text (globals st) = [] ->
  extracts_nothing E [r] st = true ->
  document_text (globals (snd (handle E r st))) = [].
Proof.
  intros Hempty Hquiet. destruct r as [request| |request]; simpl in *.
  - rewrite upload_file_text.
    by destruct (extracted_text E request st) as [[|c text]|].
  - by rewrite process_file_state.
  - by rewrite ask_question_globals.
Qed.

Lemma serve_text_empty (E : Externals) (rs : list Request) (st : St E) :
  document_text (globals st) = [] ->
  extracts_nothing E rs st = true ->
  document_text (globals (snd (serve E rs st))) = [].
Proof.
  revert st. induction rs as [|r rs IH]; intros st Hempty Hquiet; [done|].
  rewrite serve_cons. simpl in Hquiet.
  apply andb_true_iff in Hquiet as [Hr Hrs].
  apply IH; [|done]. apply handle_text_empty; [done|].
  simpl. by rewrite Hr.
Qed.




(* ===================================================================== *)
(** ** Analyze and Ask on a stored document *)
(* ===================================================================== *)

Lemma process_file_run (E : Externals) (st : St E) :
  document_text (globals st) <> [] ->
  process_file E st = (Ok (analysis (document_text (globals st))), st).
Proof.
  intros Htext. apply truthy_true in Htext.
  unfold process_file, analysis, slice_to. unfold_monad.
  by rewrite Htext, split_length.
Qed.

Lemma ask_question_run (E : Externals) (request : AskRequest) (st : St E)
    (d : list (pystr * json)) (q : pystr) :
  document_text (globals st) <> [] ->
  request_json request = Ok (JObj d) ->
  dict_get (py "question") d = Some (JStr q) ->
  strip q <> [] ->
  exists answer st',
    query_gpt4 E (strip q) (document_text (globals st)) st = (Ok answer, st') /\
    ask_question E request st = (Ok (answered (strip q) answer), st').
Proof.
  intros Htext Hjson Hq Hstrip.
  apply truthy_true in Htext. apply truthy_true in Hstrip.
  destruct (query_gpt4_total E (strip q) (document_text (globals st)) st)
    as (answer & st' & Hrun).
  exists answer, st'. split; [done|].
  unfold ask_question, data_get_question, value_strip. unfold_monad.
  rewrite Htext, Hjson. simpl. rewrite Hq. simpl. rewrite Hstrip. simpl.
  by rewrite Hrun.
Qed.

(* ===================================================================== *)
(** ** Format dispatch *)
(* ===================================================================== *)

Lemma SUPPORTED_lower (x : pystr) : x ∈ SUPPORTED -> lower x = x.
Proof.
  unfold SUPPORTED. rewrite !elem_of_cons, elem_of_nil.
  intros [->|[->|[->|[->|[->|[]]]]]]; reflexivity.
Qed.

(** No supported ending is the tail of another one. *)
Lemma SUPPORTED_suffix (x y : pystr) :
  x ∈ SUPPORTED -> y ∈ SUPPORTED -> x `suffix_of` y -> x = y.
Proof.
  unfold SUPPORTED. rewrite !elem_of_cons, !elem_of_nil.
  intros [->|[->|[->|[->|[->|[]]]]]] [->|[->|[->|[->|[->|[]]]]]] Hsuf;
    try reflexivity; exfalso; revert Hsuf;
    apply (proj1 (bool_decide_eq_false _)); vm_compute; reflexivity.
Qed.

(** A path has at most one supported ending. *)
Lemma SUPPORTED_unique (p x y : pystr) :
  x ∈ SUPPORTED -> y ∈ SUPPORTED ->
  endswith p x = true -> endswith p y = true -> x = y.
Proof.
  intros Hx Hy Hpx Hpy.
  destruct (Nat.le_ge_cases (length x) (length y)).
  - apply SUPPORTED_suffix; [done..|]. by apply (endswith_shorter p).
  - symmetry. apply SUPPORTED_suffix; [done..|]. by apply (endswith_shorter p).
Qed.

Lemma endswith_other (p x y : pystr) :
  x ∈ SUPPORTED -> y ∈ SUPPORTED -> x <> y ->
  endswith p x = true -> endswith p y = false.
Proof.
  intros Hx Hy Hne Hpx. destruct (endswith p y) eqn:Hpy; [|done].
  by destruct Hne; apply (SUPPORTED_unique p).
Qed.

(** A path that ends in a case variant has no supported ending. *)
Lemma case_variant_unsupported (p v x : pystr) :
  case_variant v -> v `suffix_of` p -> x ∈ SUPPORTED -> endswith p x = false.
Proof.
  intros [Hlow Hne] Hv Hx. destruct (endswith p x) eqn:Hpx; [|done].
  exfalso. apply endswith_suffix in Hpx.
  destruct (suffix_weak_total _ _ _ Hpx Hv) as [[k Hk]|[k Hk]].
  - assert (x `suffix_of` lower v) as Hsuf.
    { exists (lower k). rewrite Hk. unfold lower. rewrite map_app.
      f_equal. by apply (SUPPORTED_lower x). }
    pose proof (SUPPORTED_suffix _ _ Hx Hlow Hsuf) as Heq.
    assert (length k = 0%nat) as Hlen.
    { apply (f_equal (@length _)) in Heq, Hk.
      unfold lower in Heq. rewrite length_map in Heq.
      rewrite length_app in Hk. lia. }
    destruct k; [|done]. simpl in Hk. subst v.
    apply Hne. symmetry. by apply SUPPORTED_lower.
  - apply SUPPORTED_lower in Hx. rewrite Hk in Hx.
    unfold lower in Hx. rewrite map_app in Hx.
    apply app_inj_1 in Hx as [_ Hx]; [|by rewrite length_map].
    by apply Hne.
Qed.

Lemma os_path_join_suffix (a b : pystr) : b `suffix_of` os_path_join a b.
Proof.
  unfold os_path_join. repeat case_match.
  - done.
  - by apply suffix_app_r.
  - by do 2 apply suffix_app_r.
Qed.

Lemma extract_text_unsupported (E : Externals) (p : pystr) (st : St E) :
  (forall x, x ∈ SUPPORTED -> endswith p x = false) ->
  extract_text E p st = (Ok [], st).
Proof.
  intros Hno. unfold extract_text, SUPPORTED in *.
  rewrite !Hno by (rewrite !elem_of_cons; tauto). done.
Qed.

(** C10: dispatch compares the ending of the sanitized path letter case
    and all.  When the sanitized name of an upload ends in an upper- or
    mixed-case spelling of a supported ending (and the file could be
    saved), [extract_text] returns the empty string and the upload is
    answered 400 "File uploaded but no readable content found". *)
Theorem case_variant_upload_unreadable (E : Externals) (request : UploadRequest)
    (st : St E) (file : FileStorage) (v : pystr) (w : World E) :
  dict_get (py "file") (files request) = Some file ->
  filename file <> [] ->
  case_variant v ->
  v `suffix_of` upload_name E file ->
  file_save E file (upload_path E file) (world st) = (Ok tt, w) ->
  (forall x, x ∈ SUPPORTED -> endswith (upload_path E file) x = false) /\
  (forall st0, extract_text E (upload_path E file) st0 = (Ok [], st0)) /\
  upload_file E request st
  = (Ok upload_unreadable, mkSt (mkGlobals (upload_name E file) []) w (sent st)).
Proof.
  intros Hfile Hname Hv Hsuf Hsave.
  assert (forall x, x ∈ SUPPORTED -> endswith (upload_path E file) x = false)
    as Hno.
  { intros x Hx. apply (case_variant_unsupported _ v); [done| |done].
    unfold upload_path. destruct Hsuf as [k ->].
    destruct (os_path_join_suffix UPLOAD_FOLDER (k ++ v)) as [k' ->].
    exists (k' ++ k). by rewrite app_assoc. }
  split; [done|]. split; [intros; by apply extract_text_unsupported|].
  rewrite (upload_file_run E request st file Hfile Hname), Hsave.
  by rewrite extract_text_unsupported.
Qed.

Lemma case_variant_upload_unreadable_witness :
  let request := Demo.upload "Report.PDF" "Revenue: 100" in
  let st := Demo.holding "old.docx" "Costs: 7" in
  extract_text Demo.env (py "upload/Report.PDF") st = (Ok [], st) /\
  http_status (fst (upload_file Demo.env request st)) = 400.
Proof.
  intros request st.
  destruct (case_variant_upload_unreadable Demo.env request st
              (mkFile (py "Report.PDF") (list_byte_of_string "Revenue: 100"))
              (py ".PDF")
              [(py "upload/Report.PDF", list_byte_of_string "Revenue: 100")])
    as (_ & Hextract & Hupload).
  - reflexivity.
  - discriminate.
  - split; [|discriminate]. apply (list_elem_of_here (py ".pdf")).
  - exists (py "Report"). reflexivity.
  - vm_compute. reflexivity.
  - split; [apply Hextract|]. by rewrite Hupload.
Defined.

(** C9: the two tabular extractors never raise.  When the pandas reader
    raises, the result is the reader's message behind a fixed prefix; when
    it returns a table, the result is [to_string(index=False)] of that
    table (or, should rendering raise, again the prefixed message).  Only
    the world is touched. *)
Theorem tabular_extractors_return_text (E : Externals) (file_path : pystr)
    (st : St E) :
  (exists text w',
     extract_text_from_csv E file_path st
     = (Ok text, mkSt (globals st) w' (sent st)) /\
     match pd_read_csv E file_path (world st) with
     | (Raise e, w) => w' = w /\ text = py "Error reading CSV: " ++ exn_str e
     | (Ok df, w) =>
         w' = w /\
         match df_to_string E df false with
         | Ok table => text = table
         | Raise e => text = py "Error reading CSV: " ++ exn_str e
         end
     end) /\
  (exists text w',
     extract_text_from_excel E file_path st
     = (Ok text, mkSt (globals st) w' (sent st)) /\
     match pd_read_excel E file_path (world st) with
     | (Raise e, w) =>
         w' = w /\ text = py "Error reading Excel file: " ++ exn_str e
     | (Ok df, w) =>
         w' = w /\
         match df_to_string E df false with
         | Ok table => text = table
         | Raise e => text = py "Error reading Excel file: " ++ exn_str e
         end
     end).
Proof.
  unfold extract_text_from_csv, extract_text_from_excel. unfold_monad.
  split.
  - destruct (pd_read_csv E file_path (world st)) as [[df|e] w]; [|by eauto].
    destruct (df_to_string E df false); by eauto.
  - destruct (pd_read_excel E file_path (world st)) as [[df|e] w]; [|by eauto].
    destruct (df_to_string E df false); by eauto.
Qed.

(** On the small world: a table comes back rendered, a missing file and an
    empty file come back as messages. *)
Example tabular_extractors_on_disk :
  let disk : World Demo.env :=
    [(py "upload/t.csv", list_byte_of_string "a b");
     (py "upload/e.xlsx", [])] in
  let st := @mkSt Demo.env (mkGlobals [] []) disk [] in
  extract_text Demo.env (py "upload/t.csv") st = (Ok (py "a b"), st) /\
  extract_text Demo.env (py "upload/gone.csv") st
  = (Ok (py "Error reading CSV: No such file or directory"), st) /\
  extract_text Demo.env (py "upload/e.xlsx") st
  = (Ok (py "Error reading Excel file: No columns to parse from file"), st).
Proof. vm_compute. repeat split. Qed.

Lemma SUPPORTED_elem (i : nat) (x : pystr) :
  SUPPORTED !! i = Some x -> x ∈ SUPPORTED.
Proof. apply list_elem_of_lookup_2. Qed.

Lemma extract_text_parse_fails (E : Externals) (file_path : pystr) (st : St E)
    (message : pystr) (w' : World E) :
  parse_fails E file_path (world st) message w' ->
  extract_text E file_path st = (Ok message, mkSt (globals st) w' (sent st)).
Proof.
  pose proof (SUPPORTED_elem 0 _ eq_refl) as Hpdf.
  pose proof (SUPPORTED_elem 1 _ eq_refl) as Hdocx.
  pose proof (SUPPORTED_elem 2 _ eq_refl) as Hcsv.
  pose proof (SUPPORTED_elem 3 _ eq_refl) as Hxlsx.
  pose proof (SUPPORTED_elem 4 _ eq_refl) as Hxls.
  intros [e w1 Hend Hread | e w1 Hend Hread]; unfold extract_text.
  - rewrite (endswith_other file_path _ _ Hcsv Hpdf) by done.
    rewrite (endswith_other file_path _ _ Hcsv Hdocx) by done.
    rewrite Hend. unfold extract_text_from_csv. unfold_monad.
    by rewrite Hread.
  - assert (endswith file_path (py ".pdf") = false
            /\ endswith file_path (py ".docx") = false
            /\ endswith file_path (py ".csv") = false) as (-> & -> & ->).
    { destruct Hend as [Hend|Hend].
      - by rewrite !(endswith_other file_path _ _ Hxlsx) by done.
      - by rewrite !(endswith_other file_path _ _ Hxls) by done. }
    replace (endswith file_path (py ".xlsx") || endswith file_path (py ".xls"))
      with true by (destruct Hend as [-> | ->]; by rewrite ?orb_true_r).
    unfold extract_text_from_excel. unfold_monad. by rewrite Hread.
Qed.

Lemma parse_fails_message (E : Externals) (file_path : pystr) (w w' : World E)
    (message : pystr) :
  parse_fails E file_path w message w' ->
  message <> [] /\ truthy (strip message) = true.
Proof.
  intros [e w1 _ _ | e w1 _ _]; rewrite py_cons; cbn [app]; split;
    solve [discriminate | apply strip_cons_nonspace; vm_compute; reflexivity].
Qed.

(** C3: an upload of a [.csv], [.xlsx] or [.xls] file that pandas cannot
    parse is answered 200 "File uploaded successfully"; the extractor's
    error message, which is never empty, is stored as the document text,
    and it is what Analyze reports on and what Ask hands to the QA
    client. *)
Theorem unparsable_table_is_stored (E : Externals) (request : UploadRequest)
    (st : St E) (file : FileStorage) (w w' : World E) (message : pystr) :
  dict_get (py "file") (files request) = Some file ->
  filename file <> [] ->
  file_save E file (upload_path E file) (world st) = (Ok tt, w) ->
  parse_fails E (upload_path E file) w message w' ->
  let st' := mkSt (mkGlobals (upload_name E file) message) w' (sent st) in
  message <> [] /\
  extract_text E (upload_path E file) (after_save E file st w)
  = (Ok message, mkSt (globals (after_save E file st w)) w' (sent st)) /\
  upload_file E request st = (Ok upload_succeeded, st') /\
  process_file E st' = (Ok (analysis message), st') /\
  forall ask d q,
    request_json ask = Ok (JObj d) ->
    dict_get (py "question") d = Some (JStr q) ->
    strip q <> [] ->
    exists answer st'',
      query_gpt4 E (strip q) message st' = (Ok answer, st'') /\
      ask_question E ask st' = (Ok (answered (strip q) answer), st'').
Proof.
  intros Hfile Hname Hsave Hfails st'.
  destruct (parse_fails_message _ _ _ _ _ Hfails) as [Hne Hstrip].
  pose proof (extract_text_parse_fails E _ (after_save E file st w) _ _ Hfails)
    as Hextract.
  split; [done|]. split; [done|]. split; [|split].
  - rewrite (upload_file_run E request st file Hfile Hname), Hsave, Hextract.
    simpl. by rewrite Hstrip.
  - by apply process_file_run.
  - intros ask d q Hjson Hq Hq'.
    by apply (ask_question_run E ask st' d q).
Qed.

Lemma unparsable_table_is_stored_witness :
  let request := Demo.upload "empty.csv" EmptyString in
  let message := py "Error reading CSV: No columns to parse from file" in
  let disk : World Demo.env := [(py "upload/empty.csv", [])] in
  upload_file Demo.env request (initial Demo.env [])
  = (Ok upload_succeeded,
     @mkSt Demo.env (mkGlobals (py "empty.csv") message) disk []).
Proof.
  intros request message disk.
  apply (unparsable_table_is_stored Demo.env request (initial Demo.env [])
           (mkFile (py "empty.csv") []) disk disk message).
  - reflexivity.
  - discriminate.
  - vm_compute. reflexivity.
  - apply (csv_fails Demo.env (py "upload/empty.csv") disk
             (Exception (py "No columns to parse from file")) disk).
    + vm_compute. reflexivity.
    + vm_compute. reflexivity.
Defined.

(* ===================================================================== *)
(** ** Successful uploads *)
(* ===================================================================== *)

(** What a 200 from [upload_file] tells about the run. *)
Lemma upload_file_200 (E : Externals) (request : UploadRequest) (st st' : St E)
    (resp : Response) :
  upload_file E request st = (Ok resp, st') ->
  status resp = 200 ->
  exists file text,
    dict_get (py "file") (files request) = Some file /\
    extracted_text E request st = Some text /\
    truthy (strip text) = true /\
    globals st' = mkGlobals (upload_name E file) text.
Proof.
  intros Hrun Hok. unfold extracted_text.
  destruct (dict_get (py "file") (files request)) as [file|] eqn:Hfile;
    [destruct (truthy (filename file)) eqn:Hname|].
  - rewrite (upload_file_run E request st file Hfile) in Hrun
      by (by apply truthy_true).
    destruct (file_save E file (upload_path E file) (world st))
      as [[[]|e] w]; [|inversion Hrun; subst; discriminate Hok].
    destruct (extract_text E (upload_path E file) (after_save E file st w))
      as [[text|e] st2]; [|inversion Hrun; subst; discriminate Hok].
    destruct (truthy (strip text)) eqn:Hstrip;
      [|inversion Hrun; subst; discriminate Hok].
    inversion Hrun; subst. by exists file, text.
  - unfold upload_file in Hrun. rewrite Hfile, Hname in Hrun.
    inversion Hrun; subst; discriminate Hok.
  - unfold upload_file in Hrun. rewrite Hfile in Hrun.
    inversion Hrun; subst; discriminate Hok.
Qed.

(** The store an upload leaves does not depend on the store it found. *)
Lemma upload_file_forgets (E : Externals) (request : UploadRequest) (st : St E)
    (g : Globals) (file : FileStorage) (text : pystr) :
  dict_get (py "file") (files request) = Some file ->
  extracted_text E request st = Some text ->
  globals (snd (upload_file E request (mkSt g (world st) (sent st))))
  = mkGlobals (upload_name E file) text.
Proof.
  intros Hfile. unfold extracted_text. rewrite Hfile.
  destruct (truthy (filename file)) eqn:Hname; [|done].
  rewrite (upload_file_run E request _ file Hfile) by (by apply truthy_true).
  simpl. destruct (file_save E file (upload_path E file) (world st))
    as [[[]|e] w]; [|done].
  destruct (blind_extract_text E (upload_path E file) w (sent st))
    as (r & w' & s' & Hblind).
  unfold after_save. rewrite !Hblind. simpl.
  destruct r; intros Htext; by simplify_eq/=.
Qed.

(** C7: of two uploads answered 200 one after the other, the store holds
    the second one's sanitized file name and extracted text.  The same
    store results whatever the store held before the second upload, and
    Analyze then reports on the second text alone. *)
Theorem second_upload_replaces_store (E : Externals)
    (first second : UploadRequest) (st0 st1 st2 : St E)
    (resp1 resp2 : Response) :
  upload_file E first st0 = (Ok resp1, st1) ->
  status resp1 = 200 ->
  upload_file E second st1 = (Ok resp2, st2) ->
  status resp2 = 200 ->
  exists file text,
    dict_get (py "file") (files second) = Some file /\
    extracted_text E second st1 = Some text /\
    globals st2 = mkGlobals (upload_name E file) text /\
    (forall g,
       globals (snd (upload_file E second (mkSt g (world st1) (sent st1))))
       = globals st2) /\
    process_file E st2 = (Ok (analysis text), st2).
Proof.
  intros _ _ Hrun Hok.
  destruct (upload_file_200 E second st1 st2 resp2 Hrun Hok)
    as (file & text & Hfile & Htext & Hstrip & Hstore).
  exists file, text. repeat split; try done.
  - intros g. rewrite Hstore. by apply upload_file_forgets.
  - replace text with (document_text (globals st2)) by (by rewrite Hstore).
    apply process_file_run. rewrite Hstore. simpl.
    by apply truthy_true, strip_truthy.
Qed.

Lemma second_upload_replaces_store_witness :
  let first := Demo.upload "q1.docx" "Revenue: 100" in
  let second := Demo.upload "q2.docx" "Costs: 7 and rising" in
  let st1 := snd (upload_file Demo.env first (initial Demo.env [])) in
  let st2 := snd (upload_file Demo.env second st1) in
  exists file text,
    dict_get (py "file") (files second) = Some file /\
    extracted_text Demo.env second st1 = Some text /\
    globals st2 = mkGlobals (upload_name Demo.env file) text /\
    (forall g,
       globals (snd (upload_file Demo.env second (mkSt g (world st1) (sent st1))))
       = globals st2) /\
    process_file Demo.env st2 = (Ok (analysis text), st2).
Proof.
  intros first second st1 st2.
  apply (second_upload_replaces_store Demo.env first second
           (initial Demo.env []) st1 st2 upload_succeeded upload_succeeded).
  - vm_compute. reflexivity.
  - reflexivity.
  - vm_compute. reflexivity.
  - reflexivity.
Defined.

Example second_upload_store :
  globals (snd (serve Demo.env
                  [POST_upload (Demo.upload "q1.docx" "Revenue: 100");
                   POST_upload (Demo.upload "q2.docx" "Costs: 7 and rising")]
                  (initial Demo.env [])))
  = mkGlobals (py "q2.docx") (py "Costs: 7 and rising").
Proof. vm_compute. reflexivity. Qed.

(* ===================================================================== *)
(** ** Analyze *)
(* ===================================================================== *)

(** C6: with a non-empty stored text, Analyze answers 200; the word count
    in its message is the number of whitespace-delimited tokens of the
    whole stored text, its content is the first 500 characters of it, and
    the state is left as it was. *)
Theorem process_file_reports (E : Externals) (st : St E) :
  document_text (globals st) <> [] ->
  let text := document_text (globals st) in
  exists resp,
    process_file E st = (Ok resp, st) /\
    status resp = 200 /\
    dict_get (py "message") (body resp)
    = Some (JStr (py "Analysis successful! Word count: "
                    ++ str_of_nat (token_count text))) /\
    dict_get (py "content") (body resp) = Some (JStr (take 500 text)) /\
    length (split text) = token_count text /\
    length (take 500 text) = (length text `min` 500)%nat.
Proof.
  intros Htext text. exists (analysis text).
  split; [by apply process_file_run|].
  repeat split; try done.
  - apply split_length.
  - rewrite length_take. lia.
Qed.

Lemma process_file_reports_witness :
  let st := Demo.holding "q1.docx" "Revenue: 100  Costs: 7" in
  exists resp,
    process_file Demo.env st = (Ok resp, st) /\
    status resp = 200 /\
    dict_get (py "message") (body resp)
    = Some (JStr (py "Analysis successful! Word count: 4")) /\
    dict_get (py "content") (body resp)
    = Some (JStr (py "Revenue: 100  Costs: 7")).
Proof.
  intros st.
  destruct (process_file_reports Demo.env st)
    as (resp & Hrun & Hstatus & Hmessage & Hcontent & _);
    [discriminate|].
  exists resp. repeat split; assumption.
Defined.

(** The count is over the whole text, the content over its first 500
    characters: 300 two-letter words give 300 and "ab ab ... a". *)
Example process_file_long_text :
  let text := concat (repeat (py "ab ") 300) in
  fst (process_file Demo.env (@mkSt Demo.env (mkGlobals (py "long.pdf") text) [] []))
  = Ok (jsonify [(py "message", JStr (py "Analysis successful! Word count: 300"));
                 (py "content", JStr (concat (repeat (py "ab ") 166) ++ py "ab"))]
          200).
Proof. vm_compute. reflexivity. Qed.

(* ===================================================================== *)
(** ** Ask and the QA client *)
(* ===================================================================== *)

Lemma handle_text_kept (E : Externals) (r : Request) (st : St E) :
  document_text (globals st) <> [] ->
  keeps_document E [r] st = true ->
  document_text (globals (snd (handle E r st))) <> [].
Proof.
  intros Htext Hkeep. destruct r as [request| |request]; simpl in *.
  - rewrite upload_file_text.
    by destruct (extracted_text E request st) as [[|c text]|].
  - by rewrite process_file_state.
  - by rewrite ask_question_globals.
Qed.

Lemma serve_text_kept (E : Externals) (rs : list Request) (st : St E) :
  document_text (globals st) <> [] ->
  keeps_document E rs st = true ->
  document_text (globals (snd (serve E rs st))) <> [].
Proof.
  revert st. induction rs as [|r rs IH]; intros st Htext Hkeep; [done|].
  rewrite serve_cons. simpl in Hkeep.
  apply andb_true_iff in Hkeep as [Hr Hrs].
  apply IH; [|done]. apply handle_text_kept; [done|].
  simpl. by rewrite Hr.
Qed.

(** C8, as stated, fails: after a successful upload, a second upload with
    an unsupported extension is answered 400 and empties the stored text;
    the blank question that follows is then answered "No document analyzed
    yet", not "Please ask a question". *)
Lemma blank_question_after_emptied_store :
  fst (serve Demo.env
         [POST_upload (Demo.upload "q1.docx" "Revenue: 100");
          POST_upload (Demo.upload "notes.txt" "plain text");
          POST_ask (Demo.ask "  ")]
         (initial Demo.env []))
  = [Ok upload_succeeded; Ok upload_unreadable; Ok no_document]
  /\ no_document <> please_ask.
Proof. split; [vm_compute; reflexivity | discriminate]. Qed.

(** An Ask with a blank question in an object body, in any state. *)
Lemma ask_question_blank (E : Externals) (request : AskRequest) (st : St E)
    (d : list (pystr * json)) :
  request_json request = Ok (JObj d) ->
  dict_get (py "question") d = None
  \/ (exists q, dict_get (py "question") d = Some (JStr q) /\ strip q = []) ->
  ask_question E request st
  = (Ok (if truthy (document_text (globals st)) then please_ask
         else no_document), st).
Proof.
  intros Hjson Hblank.
  unfold ask_question, data_get_question, value_strip. unfold_monad.
  destruct (truthy (document_text (globals st))); [|done]. simpl.
  rewrite Hjson. simpl.
  destruct Hblank as [-> | (q & -> & Hq)]; simpl; [done|].
  by rewrite Hq.
Qed.

(** C8 (amended): an Ask whose body is a JSON object in which the question
    is absent, or is a string that is empty or of whitespace only, is
    answered 400 in every state, after a successful upload or not.  The
    state comes back as it was, log of calls to the completion client
    included: the QA client is not invoked.  The message is "Please ask a
    question" exactly when the stored text is not empty, and "No document
    analyzed yet" exactly when it is.  The stored text is not empty, and
    so the message is "Please ask a question", after an upload answered
    200 and whatever requests were served since, as long as no later
    upload extracted the empty string. *)
Theorem blank_question_rejected (E : Externals) (request : AskRequest)
    (d : list (pystr * json)) (st : St E) :
  request_json request = Ok (JObj d) ->
  dict_get (py "question") d = None
  \/ (exists q, dict_get (py "question") d = Some (JStr q) /\ strip q = []) ->
  exists resp,
    ask_question E request st = (Ok resp, st) /\
    status resp = 400 /\
    sent (snd (ask_question E request st)) = sent st /\
    (resp = please_ask <-> document_text (globals st) <> []) /\
    (resp = no_document <-> document_text (globals st) = []) /\
    forall (upload : UploadRequest) (st0 st1 : St E) (resp0 : Response)
           (rs : list Request),
      upload_file E upload st0 = (Ok resp0, st1) ->
      status resp0 = 200 ->
      keeps_document E rs st1 = true ->
      st = snd (serve E rs st1) ->
      resp = please_ask.
Proof.
  intros Hjson Hblank.
  pose proof (ask_question_blank E request st d Hjson Hblank) as Hask.
  exists (if truthy (document_text (globals st)) then please_ask
          else no_document).
  split; [done|]. rewrite Hask. simpl.
  split; [by destruct (truthy (document_text (globals st)))|].
  split; [done|].
  destruct (document_text (globals st)) as [|c text] eqn:Htext; simpl.
  - split; [split; [discriminate|done]|]. split; [done|].
    intros upload st0 st1 resp0 rs Hrun Hok Hkeep ->.
    destruct (upload_file_200 E upload st0 st1 resp0 Hrun Hok)
      as (file & t & _ & _ & Hstrip & Hstore).
    exfalso. apply (serve_text_kept E rs st1); [|done..].
    rewrite Hstore. by apply truthy_true, strip_truthy.
  - split; [done|]. split; [split; discriminate|]. done.
Qed.

Lemma blank_question_rejected_witness :
  let st1 := snd (upload_file Demo.env (Demo.upload "q1.docx" "Revenue: 100")
                    (initial Demo.env [])) in
  let rs := [POST_process; POST_upload (mkUpload []);
             POST_upload (Demo.upload "scan.pdf" EmptyString)] in
  let st := snd (serve Demo.env rs st1) in
  ask_question Demo.env (Demo.ask "   ") st = (Ok please_ask, st) /\
  ask_question Demo.env (mkAsk (Ok (JObj []))) (initial Demo.env [])
  = (Ok no_document, initial Demo.env []).
Proof.
  intros st1 rs st. split.
  - destruct (blank_question_rejected Demo.env (Demo.ask "   ")
                [(py "question", JStr (py "   "))] st)
      as (resp & Hask & _ & _ & _ & _ & Hafter).
    + reflexivity.
    + right. exists (py "   "). split; reflexivity.
    + rewrite Hask. f_equal. f_equal.
      apply (Hafter (Demo.upload "q1.docx" "Revenue: 100")
               (initial Demo.env []) st1 upload_succeeded rs).
      * vm_compute. reflexivity.
      * reflexivity.
      * vm_compute. reflexivity.
      * reflexivity.
  - destruct (blank_question_rejected Demo.env (mkAsk (Ok (JObj []))) []
                (initial Demo.env []))
      as (resp & Hask & _ & _ & _ & Hempty & _).
    + reflexivity.
    + left. reflexivity.
    + rewrite Hask. f_equal. f_equal. apply Hempty. reflexivity.
Defined.

Lemma query_gpt4_fails (E : Externals) (question context : pystr) (st : St E)
    (e : PyExn) :
  completion_fails E question context (world st) e ->
  exists st',
    query_gpt4 E question context st = (Ok (error_answer e), st') /\
    globals st' = globals st.
Proof.
  intros [e' Hclient | client e' w' Hclient Hcall
         | client response w' Hclient Hcall Hchoices];
    unfold query_gpt4, completions_create, make_client, completion_call in *;
    unfold_monad.
  - rewrite Hclient. by eexists.
  - rewrite Hclient, Hcall. by eexists.
  - rewrite Hclient, Hcall. simpl. rewrite Hchoices. by eexists.
Qed.

(** C4: [query_gpt4] never raises.  When the completion-service call fails
    its result is the error's text behind "Error querying GPT-4: ", and an
    Ask with a stored document and a real question is then answered 200
    with that text in the answer field; Flask sees no exception, so no
    500. *)
Theorem completion_failure_is_answered (E : Externals) (request : AskRequest)
    (st : St E) (d : list (pystr * json)) (q : pystr) (e : PyExn) :
  document_text (globals st) <> [] ->
  request_json request = Ok (JObj d) ->
  dict_get (py "question") d = Some (JStr q) ->
  strip q <> [] ->
  completion_fails E (strip q) (document_text (globals st)) (world st) e ->
  (forall question context st0,
     exists answer st0', query_gpt4 E question context st0 = (Ok answer, st0')) /\
  exists st',
    query_gpt4 E (strip q) (document_text (globals st)) st
    = (Ok (error_answer e), st') /\
    ask_question E request st = (Ok (answered (strip q) (error_answer e)), st') /\
    http_status (fst (ask_question E request st)) = 200 /\
    globals st' = globals st.
Proof.
  intros Htext Hjson Hq Hstrip Hfails.
  split; [intros; apply query_gpt4_total|].
  destruct (query_gpt4_fails E _ _ st e Hfails) as (st' & Hquery & Hglobals).
  destruct (ask_question_run E request st d q Htext Hjson Hq Hstrip)
    as (answer & st'' & Hquery' & Hask).
  rewrite Hquery in Hquery'. simplify_eq.
  exists st''. by rewrite Hask.
Qed.

Lemma completion_failure_is_answered_witness :
  let st := @mkSt Demo.env_with_key
              (mkGlobals (py "q1.docx") (py "Revenue: 100")) [] [] in
  let out := ask_question Demo.env_with_key
               (Demo.ask " What is the revenue? ") st in
  fst out = Ok (answered (py "What is the revenue?")
                  (JStr (py "Error querying GPT-4: Connection error."))) /\
  http_status (fst out) = 200.
Proof.
  intros st out.
  destruct (completion_failure_is_answered Demo.env_with_key
              (Demo.ask " What is the revenue? ") st
              [(py "question", JStr (py " What is the revenue? "))]
              (py " What is the revenue? ")
              (Exception (py "Connection error.")))
    as (_ & st' & _ & Hask & Hstatus & _).
  - discriminate.
  - reflexivity.
  - reflexivity.
  - vm_compute. discriminate.
  - apply (request_fails Demo.env_with_key _ _ _ tt _ []); reflexivity.
  - unfold out. rewrite Hask. split; reflexivity.
Defined.

(** C5: the user message of the prompt is "Document: ", the first 2000
    characters of the context, "...", a blank line and the question.  The
    excerpt is never longer than 2000 characters, the prompt and the whole
    run of [query_gpt4] are the same as for the context cut at 2000, and
    what the service receives is that prompt (nothing, when no client
    could be built). *)
Theorem prompt_holds_first_2000 (E : Externals) (question context : pystr)
    (st : St E) :
  map content (prompt_messages question context)
  = [py "You are Financial assistant that answers questions based on the uploaded document.";
     py "Document: " ++ take 2000 context ++ py "..." ++ [nl; nl]
       ++ py "Question: " ++ question] /\
  (length (take 2000 context) <= 2000)%nat /\
  take 2000 context `prefix_of` context /\
  prompt_messages question context
  = prompt_messages question (take 2000 context) /\
  query_gpt4 E question context st
  = query_gpt4 E question (take 2000 context) st /\
  sent (snd (query_gpt4 E question context st))
  = sent st ++ match make_client E with
               | Ok _ => [mkCall (AZURE_DEPLOYMENT_NAME E)
                            (prompt_messages question (take 2000 context))
                            (1 # 2)]
               | Raise _ => []
               end.
Proof.
  assert (prompt_messages question context
          = prompt_messages question (take 2000 context)) as Hprompt.
  { unfold prompt_messages, slice_to. by rewrite take_take, Nat.min_id. }
  split; [done|]. split; [rewrite length_take; lia|].
  split; [apply prefix_take|]. split; [done|].
  unfold query_gpt4. rewrite <- Hprompt. split; [done|].
  unfold completions_create, make_client. unfold_monad.
  destruct (AzureOpenAI E _ _ _) as [client|e]; [|simpl; by rewrite app_nil_r].
  destruct (chat_completions_create E client _ _) as [[response|e] w]; [|done].
  by destruct (choices response).
Qed.

(** A 2500-character document whose tail differs: the recorded request
    holds the first 2000 characters and none of the tail. *)
Example prompt_drops_the_tail :
  let head := concat (repeat (py "Revenue 100 ") 200) in
  let context := head ++ concat (repeat (py "z") 100) in
  let st := @mkSt Demo.env_with_key (mkGlobals (py "long.pdf") context) [] [] in
  map (fun c => map content (call_messages c))
      (sent (snd (ask_question Demo.env_with_key (Demo.ask "Total?") st)))
  = [[py "You are Financial assistant that answers questions based on the uploaded document.";
      py "Document: " ++ take 2000 head ++ py "..." ++ [nl; nl]
        ++ py "Question: Total?"]].
Proof. vm_compute. reflexivity. Qed.

(* ===================================================================== *)
(** ** Readable text *)
(* ===================================================================== *)

Lemma truthy_false_nil (s : pystr) : truthy s = false -> s = [].
Proof. by destruct s. Qed.

Lemma readable_app (s t : pystr) : readable (s ++ t) = readable s || readable t.
Proof. apply existsb_app. Qed.

Lemma readable_cons (c : pychar) (s : pystr) :
  readable (c :: s) = negb (isspace c) || readable s.
Proof. reflexivity. Qed.

Lemma readable_rev (s : pystr) : readable (rev s) = readable s.
Proof.
  induction s as [|c s IH]; [done|]. simpl rev.
  rewrite readable_app, IH, !readable_cons. simpl.
  by rewrite orb_false_r, orb_comm.
Qed.

Lemma lstrip_readable (s : pystr) : readable (lstrip s) = readable s.
Proof.
  induction s as [|c s IH]; [done|]. cbn [lstrip].
  destruct (isspace c) eqn:Hc; [|done].
  by rewrite readable_cons, Hc.
Qed.

Lemma lstrip_truthy (s : pystr) : truthy (lstrip s) = readable s.
Proof.
  induction s as [|c s IH]; [done|]. cbn [lstrip]. rewrite readable_cons.
  destruct (isspace c) eqn:Hc; [done|]. done.
Qed.

(** [s.strip()] is non-empty exactly when [s] has a character that is not
    whitespace. *)
Lemma strip_readable (s : pystr) : truthy (strip s) = readable s.
Proof.
  unfold strip, rstrip.
  by rewrite lstrip_truthy, readable_rev, lstrip_readable, readable_rev.
Qed.

Lemma readable_true (s : pystr) :
  readable s = true <-> exists c, c ∈ s /\ isspace c = false.
Proof.
  unfold readable. rewrite existsb_exists. split.
  - intros (c & Hin & Hc). exists c. split; [by apply list_elem_of_In|].
    by destruct (isspace c).
  - intros (c & Hin & Hc). exists c. split; [by apply list_elem_of_In|].
    by rewrite Hc.
Qed.

(** X1: once the file is saved and [extract_text] has returned, the upload
    is answered 200 exactly when the text has a character that is not
    whitespace, and 400 "no readable content" otherwise; either way the
    text and the sanitized name are what the store then holds. *)
Theorem upload_answer_by_readability (E : Externals) (request : UploadRequest)
    (st st1 : St E) (file : FileStorage) (w : World E) (text : pystr) :
  dict_get (py "file") (files request) = Some file ->
  filename file <> [] ->
  file_save E file (upload_path E file) (world st) = (Ok tt, w) ->
  extract_text E (upload_path E file) (after_save E file st w) = (Ok text, st1) ->
  exists resp st',
    upload_file E request st = (Ok resp, st') /\
    globals st' = mkGlobals (upload_name E file) text /\
    (status resp = 200 <-> exists c, c ∈ text /\ isspace c = false) /\
    (resp = upload_unreadable <-> forall c, c ∈ text -> isspace c = true).
Proof.
  intros Hfile Hname Hsave Hextract.
  rewrite (upload_file_run E request st file Hfile Hname), Hsave, Hextract.
  do 2 eexists. split; [done|]. split; [done|].
  rewrite strip_readable. rewrite <- readable_true.
  destruct (readable text) eqn:Hread.
  - split; [done|]. split; [discriminate|].
    intros Hall. apply readable_true in Hread as (c & Hin & Hc).
    rewrite (Hall c Hin) in Hc. discriminate.
  - split; [split; discriminate|]. split; [|done].
    intros _ c Hin. destruct (isspace c) eqn:Hc; [done|].
    assert (readable text = true) as Hyes by (apply readable_true; eauto).
    congruence.
Qed.

Lemma upload_answer_by_readability_witness :
  let request := Demo.upload "q1.docx" "  Revenue" in
  exists resp st',
    upload_file Demo.env request (initial Demo.env []) = (Ok resp, st') /\
    globals st' = mkGlobals (py "q1.docx") (py "  Revenue") /\
    (status resp = 200 <-> exists c, c ∈ py "  Revenue" /\ isspace c = false) /\
    (resp = upload_unreadable
     <-> forall c, c ∈ py "  Revenue" -> isspace c = true).
Proof.
  intros request.
  apply (upload_answer_by_readability Demo.env request (initial Demo.env [])
           (after_save Demo.env
              (mkFile (py "q1.docx") (list_byte_of_string "  Revenue"))
              (initial Demo.env [])
              [(py "upload/q1.docx", list_byte_of_string "  Revenue")])
           (mkFile (py "q1.docx") (list_byte_of_string "  Revenue"))
           [(py "upload/q1.docx", list_byte_of_string "  Revenue")]).
  - reflexivity.
  - discriminate.
  - vm_compute. reflexivity.
  - vm_compute. reflexivity.
Defined.

(* ===================================================================== *)
(** ** PDF and DOCX extraction *)
(* ===================================================================== *)

Lemma pdf_pages_run (E : Externals) (pages : list (Result pystr))
    (text : pystr) (st : St E) :
  pdf_pages E text pages st
  = (match page_texts pages with
     | Ok ts => Ok (text ++ pdf_text ts)
     | Raise e => Raise e
     end, st).
Proof.
  revert text. induction pages as [|[t|e] pages IH]; intros text; simpl.
  - unfold_monad. by rewrite app_nil_r.
  - unfold_monad. rewrite IH.
    destruct (page_texts pages) as [ts|e]; [|done].
    unfold pdf_text. simpl. by rewrite <- !app_assoc.
  - done.
Qed.

Lemma pdf_text_length (ts : list pystr) :
  length (pdf_text ts) = (list_sum (map length ts) + length ts)%nat.
Proof.
  unfold pdf_text. induction ts as [|t ts IH]; [done|]. simpl.
  rewrite !length_app, IH. simpl. lia.
Qed.

Lemma pdf_text_readable (ts : list pystr) :
  readable (pdf_text ts) = existsb readable ts.
Proof.
  unfold pdf_text. induction ts as [|t ts IH]; [done|]. simpl.
  rewrite <- app_assoc, !readable_app, IH. simpl.
  change (isspace nl) with true. simpl. done.
Qed.

Lemma extract_text_from_pdf_eq (E : Externals) (file_path : pystr)
    (st : St E) :
  extract_text_from_pdf E file_path st
  = (match fitz_open E file_path (world st) with
     | (Raise e, _) => Raise e
     | (Ok pages, _) =>
         match page_texts pages with
         | Ok ts => Ok (pdf_text ts)
         | Raise e => Raise e
         end
     end,
     mkSt (globals st) (snd (fitz_open E file_path (world st))) (sent st)).
Proof.
  unfold extract_text_from_pdf. unfold_monad.
  destruct (fitz_open E file_path (world st)) as [[pages|e] w]; [|done].
  by rewrite pdf_pages_run.
Qed.

(** X2: [extract_text_from_pdf] opens the file and, when every page can be
    read, returns the page texts in page order, each followed by a newline
    (so the length is the total length of the texts plus the number of
    pages).  When opening raises, or some page does, it raises that
    exception: the first one in page order.  Only the world may change. *)
Theorem extract_text_from_pdf_run (E : Externals) (file_path : pystr)
    (st : St E) :
  extract_text_from_pdf E file_path st
  = (match fitz_open E file_path (world st) with
     | (Raise e, _) => Raise e
     | (Ok pages, _) =>
         match page_texts pages with
         | Ok ts => Ok (pdf_text ts)
         | Raise e => Raise e
         end
     end,
     mkSt (globals st) (snd (fitz_open E file_path (world st))) (sent st))
  /\ forall ts, length (pdf_text ts)
                = (list_sum (map length ts) + length ts)%nat.
Proof.
  split.
  - apply extract_text_from_pdf_eq.
  - intros ts. apply pdf_text_length.
Qed.

Example extract_text_from_pdf_pages :
  pdf_pages Demo.env [] [Ok (py "Revenue: 100"); Ok []; Ok (py "Costs: 7")]
    (initial Demo.env [])
  = (Ok (py "Revenue: 100" ++ [nl; nl] ++ py "Costs: 7" ++ [nl]),
     initial Demo.env [])
  /\ fst (pdf_pages Demo.env []
            [Ok (py "a"); Raise (Exception (py "page 2"));
             Raise (Exception (py "page 3"))]
            (initial Demo.env []))
     = Raise (Exception (py "page 2")).
Proof. vm_compute. split; reflexivity. Qed.

(** X3: an upload of a saved [.pdf] file whose pages can all be read is
    answered 200 when some page has a character that is not whitespace and
    400 otherwise.  With at least one page the stored text is never empty,
    so Analyze answers 200 afterwards even when the upload was answered
    400. *)
Theorem pdf_upload_outcome (E : Externals) (request : UploadRequest)
    (st : St E) (file : FileStorage) (w w' : World E)
    (pages : list (Result pystr)) (ts : list pystr) :
  dict_get (py "file") (files request) = Some file ->
  filename file <> [] ->
  file_save E file (upload_path E file) (world st) = (Ok tt, w) ->
  endswith (upload_path E file) (py ".pdf") = true ->
  fitz_open E (upload_path E file) w = (Ok pages, w') ->
  page_texts pages = Ok ts ->
  let st' := mkSt (mkGlobals (upload_name E file) (pdf_text ts)) w' (sent st) in
  upload_file E request st
  = (Ok (if existsb readable ts then upload_succeeded else upload_unreadable),
     st') /\
  (ts <> [] ->
   document_text (globals st') <> [] /\
   process_file E st' = (Ok (analysis (pdf_text ts)), st')).
Proof.
  intros Hfile Hname Hsave Hpdf Hopen Hpages st'.
  split.
  - rewrite (upload_file_run E request st file Hfile Hname), Hsave.
    unfold extract_text. rewrite Hpdf.
    rewrite extract_text_from_pdf_eq. simpl. rewrite Hopen, Hpages. simpl.
    by rewrite strip_readable, pdf_text_readable.
  - intros Hts.
    assert (pdf_text ts <> []) as Htext.
    { intros Heq. apply (f_equal (@length _)) in Heq.
      rewrite pdf_text_length in Heq. destruct ts; [done|].
      simpl in Heq. lia. }
    split; [done|]. by apply process_file_run.
Qed.

Lemma pdf_upload_outcome_witness :
  let request := Demo.upload "scan.pdf" " " in
  let disk : World Demo.env := [(py "upload/scan.pdf", list_byte_of_string " ")] in
  let st' := @mkSt Demo.env (mkGlobals (py "scan.pdf") (py " " ++ [nl])) disk [] in
  upload_file Demo.env request (initial Demo.env []) = (Ok upload_unreadable, st')
  /\ process_file Demo.env st' = (Ok (analysis (py " " ++ [nl])), st').
Proof.
  intros request disk st'.
  destruct (pdf_upload_outcome Demo.env request (initial Demo.env [])
              (mkFile (py "scan.pdf") (list_byte_of_string " ")) disk disk
              [Ok (py " ")] [py " "]) as [Hupload Hprocess].
  - reflexivity.
  - discriminate.
  - vm_compute. reflexivity.
  - vm_compute. reflexivity.
  - vm_compute. reflexivity.
  - reflexivity.
  - split; [exact Hupload|]. apply Hprocess. discriminate.
Defined.

Lemma join_readable (ps : list pystr) :
  readable (join [nl] ps) = existsb readable ps.
Proof.
  induction ps as [|p ps IH]; [done|].
  destruct ps as [|p' ps].
  - simpl. by rewrite orb_false_r.
  - change (join [nl] (p :: p' :: ps)) with (p ++ [nl] ++ join [nl] (p' :: ps)).
    rewrite !readable_app, IH. done.
Qed.

Lemma join_length (sep : pystr) (ps : list pystr) :
  length (join sep ps)
  = (list_sum (map length ps) + length sep * (length ps - 1))%nat.
Proof.
  induction ps as [|p ps IH]; [simpl; lia|].
  destruct ps as [|p' ps]; [simpl; lia|].
  change (join sep (p :: p' :: ps)) with (p ++ sep ++ join sep (p' :: ps)).
  rewrite !length_app, IH. simpl. lia.
Qed.

Lemma extract_text_from_docx_eq (E : Externals) (file_path : pystr)
    (st : St E) :
  extract_text_from_docx E file_path st
  = (match fst (docx_Document E file_path (world st)) with
     | Ok ps => Ok (join [nl] ps)
     | Raise e => Raise e
     end,
     mkSt (globals st) (snd (docx_Document E file_path (world st))) (sent st)).
Proof.
  unfold extract_text_from_docx. unfold_monad.
  by destruct (docx_Document E file_path (world st)) as [[ps|e] w].
Qed.

(** X4: an upload of a saved [.docx] file that python-docx can open
    stores the paragraph texts joined by single newlines (no newline after
    the last one), and is answered 200 when some paragraph has a character
    that is not whitespace and 400 otherwise. *)
Theorem docx_upload_outcome (E : Externals) (request : UploadRequest)
    (st : St E) (file : FileStorage) (w w' : World E) (ps : list pystr) :
  dict_get (py "file") (files request) = Some file ->
  filename file <> [] ->
  file_save E file (upload_path E file) (world st) = (Ok tt, w) ->
  endswith (upload_path E file) (py ".docx") = true ->
  docx_Document E (upload_path E file) w = (Ok ps, w') ->
  upload_file E request st
  = (Ok (if existsb readable ps then upload_succeeded else upload_unreadable),
     mkSt (mkGlobals (upload_name E file) (join [nl] ps)) w' (sent st)) /\
  length (join [nl] ps) = (list_sum (map length ps) + (length ps - 1))%nat.
Proof.
  intros Hfile Hname Hsave Hdocx Hopen. split.
  - rewrite (upload_file_run E request st file Hfile Hname), Hsave.
    unfold extract_text.
    rewrite (endswith_other _ (py ".docx") (py ".pdf")), Hdocx;
      [|apply (SUPPORTED_elem 1); reflexivity
       |apply (SUPPORTED_elem 0); reflexivity|discriminate|done].
    rewrite extract_text_from_docx_eq. simpl. rewrite Hopen. simpl.
    by rewrite strip_readable, join_readable.
  - rewrite join_length. simpl. lia.
Qed.

Lemma docx_upload_outcome_witness :
  let request := Demo.upload "q1.docx" "Revenue: 100" in
  let disk : World Demo.env :=
    [(py "upload/q1.docx", list_byte_of_string "Revenue: 100")] in
  upload_file Demo.env request (initial Demo.env [])
  = (Ok upload_succeeded,
     @mkSt Demo.env (mkGlobals (py "q1.docx") (py "Revenue: 100")) disk []).
Proof.
  intros request disk.
  apply (docx_upload_outcome Demo.env request (initial Demo.env [])
           (mkFile (py "q1.docx") (list_byte_of_string "Revenue: 100"))
           disk disk [py "Revenue: 100"]).
  - reflexivity.
  - discriminate.
  - vm_compute. reflexivity.
  - vm_compute. reflexivity.
  - vm_compute. reflexivity.
Defined.

(* ===================================================================== *)
(** ** Dispatch on the file name *)
(* ===================================================================== *)

(** X5: a path with a supported ending has no other supported ending, and
    [extract_text] hands it to the extractor of that ending; the order in
    which the endings are tested plays no role. *)
Theorem extract_text_dispatch (E : Externals) (file_path x : pystr) :
  x ∈ SUPPORTED ->
  endswith file_path x = true ->
  extract_text E file_path = extractor_for E x file_path /\
  forall y, y ∈ SUPPORTED -> y <> x -> endswith file_path y = false.
Proof.
  intros Hx Hend.
  assert (forall y, y ∈ SUPPORTED -> y <> x -> endswith file_path y = false)
    as Hother.
  { intros y Hy Hne. by apply (endswith_other file_path x y). }
  split; [|done].
  pose proof (SUPPORTED_elem 0 _ eq_refl) as Hpdf.
  pose proof (SUPPORTED_elem 1 _ eq_refl) as Hdocx.
  pose proof (SUPPORTED_elem 2 _ eq_refl) as Hcsv.
  pose proof (SUPPORTED_elem 3 _ eq_refl) as Hxlsx.
  unfold SUPPORTED in Hx. rewrite !elem_of_cons, elem_of_nil in Hx.
  unfold extract_text, extractor_for.
  destruct Hx as [->|[->|[->|[->|[->|[]]]]]].
  - by rewrite Hend.
  - by rewrite (Hother _ Hpdf), Hend.
  - by rewrite (Hother _ Hpdf), (Hother _ Hdocx), Hend.
  - by rewrite (Hother _ Hpdf), (Hother _ Hdocx), (Hother _ Hcsv), Hend.
  - rewrite (Hother _ Hpdf), (Hother _ Hdocx), (Hother _ Hcsv),
      (Hother _ Hxlsx), Hend by done. done.
Qed.

Lemma extract_text_dispatch_witness :
  extract_text Demo.env (py "upload/report.pdf.csv")
  = extract_text_from_csv Demo.env (py "upload/report.pdf.csv")
  /\ endswith (py "upload/report.pdf.csv") (py ".pdf") = false.
Proof.
  destruct (extract_text_dispatch Demo.env (py "upload/report.pdf.csv")
              (py ".csv")) as [Hrun Hother].
  - apply (SUPPORTED_elem 2). reflexivity.
  - vm_compute. reflexivity.
  - split; [exact Hrun|]. apply Hother; [|discriminate].
    apply (SUPPORTED_elem 0). reflexivity.
Defined.

Lemma suffix_behind_prefix (k name x' : pystr) (c : pychar) :
  c ∉ k ->
  (c :: x') `suffix_of` (k ++ name) -> (c :: x') `suffix_of` name.
Proof.
  intros Hc [q Hq].
  apply app_eq_inv in Hq as [(k0 & Hk & Hx)|(k0 & Hk & Hx)].
  - destruct k0 as [|c0 k0].
    + simpl in Hx. by rewrite <- Hx.
    + simpl in Hx. injection Hx as <- _. destruct Hc.
      rewrite Hk. apply elem_of_app. right. apply list_elem_of_here.
  - exists k0. done.
Qed.

Lemma endswith_upload_folder (name x : pystr) :
  x ∈ SUPPORTED ->
  endswith (os_path_join UPLOAD_FOLDER name) x = endswith name x.
Proof.
  intros Hx. unfold os_path_join.
  destruct (startswith name (py "/")); [done|].
  change (negb (truthy UPLOAD_FOLDER) || endswith UPLOAD_FOLDER (py "/"))
    with false. cbn match.
  apply eq_true_iff_eq. rewrite !endswith_suffix. split.
  - rewrite app_assoc. intros Hsuf.
    assert (exists x', x = 46%N :: x') as [x' ->].
    { unfold SUPPORTED in Hx. rewrite !elem_of_cons, elem_of_nil in Hx.
      destruct Hx as [->|[->|[->|[->|[->|[]]]]]]; by eexists. }
    apply (suffix_behind_prefix (UPLOAD_FOLDER ++ py "/")); [|done].
    apply (proj1 (bool_decide_eq_false _)). vm_compute. reflexivity.
  - intros Hsuf. by do 2 apply suffix_app_r.
Qed.

(** X6: the folder in front of the name neither creates nor hides an
    ending: for each supported ending, the upload path has it exactly when
    the sanitized name has it, and the path always ends in that name. *)
Theorem dispatch_by_sanitized_name (E : Externals) (file : FileStorage) :
  Forall (fun x => endswith (upload_path E file) x
                   = endswith (upload_name E file) x) SUPPORTED
  /\ upload_name E file `suffix_of` upload_path E file.
Proof.
  split; [|apply os_path_join_suffix].
  apply Forall_forall. intros x Hx. by apply endswith_upload_folder.
Qed.

Lemma tabular_never_raise (E : Externals) (file_path : pystr) (st : St E) :
  (exists text st', extract_text_from_csv E file_path st = (Ok text, st'))
  /\ (exists text st', extract_text_from_excel E file_path st = (Ok text, st')).
Proof.
  unfold extract_text_from_csv, extract_text_from_excel. unfold_monad. split.
  - destruct (pd_read_csv E file_path (world st)) as [[df|e] w]; [|by eauto].
    destruct (df_to_string E df false); by eauto.
  - destruct (pd_read_excel E file_path (world st)) as [[df|e] w]; [|by eauto].
    destruct (df_to_string E df false); by eauto.
Qed.

(** X7: once the file is saved, only a PDF or DOCX can make the upload
    fail: for a path that ends neither in [.pdf] nor in [.docx] the answer
    is 200 or 400, never 500, and the text [extract_text] returned is
    stored. *)
Theorem upload_fails_only_for_pdf_docx (E : Externals)
    (request : UploadRequest) (st : St E) (file : FileStorage) (w : World E) :
  dict_get (py "file") (files request) = Some file ->
  filename file <> [] ->
  file_save E file (upload_path E file) (world st) = (Ok tt, w) ->
  endswith (upload_path E file) (py ".pdf") = false ->
  endswith (upload_path E file) (py ".docx") = false ->
  exists resp st' text,
    upload_file E request st = (Ok resp, st') /\
    extracted_text E request st = Some text /\
    globals st' = mkGlobals (upload_name E file) text /\
    (status resp = 200 \/ status resp = 400) /\
    status resp <> 500.
Proof.
  intros Hfile Hname Hsave Hpdf Hdocx.
  assert (exists text st1,
            extract_text E (upload_path E file) (after_save E file st w)
            = (Ok text, st1)) as (text & st1 & Hextract).
  { unfold extract_text. rewrite Hpdf, Hdocx.
    destruct (tabular_never_raise E (upload_path E file)
                (after_save E file st w)) as [Hcsv Hexcel].
    repeat case_match; [done..|]. by eexists _, _. }
  rewrite (upload_file_run E request st file Hfile Hname), Hsave, Hextract.
  unfold extracted_text.
  rewrite Hfile, (proj2 (truthy_true _) Hname), Hsave, Hextract. simpl.
  exists (if truthy (strip text) then upload_succeeded else upload_unreadable).
  eexists _, text. split; [done|]. split; [done|]. split; [done|].
  destruct (truthy (strip text)); simpl; split; auto; discriminate.
Qed.

Lemma upload_fails_only_for_pdf_docx_witness :
  exists resp st' text,
    upload_file Demo.env (Demo.upload "gone.xls" EmptyString)
      (initial Demo.env []) = (Ok resp, st') /\
    extracted_text Demo.env (Demo.upload "gone.xls" EmptyString)
      (initial Demo.env []) = Some text /\
    globals st' = mkGlobals (py "gone.xls") text /\
    (status resp = 200 \/ status resp = 400) /\
    status resp <> 500.
Proof.
  apply (upload_fails_only_for_pdf_docx Demo.env
           (Demo.upload "gone.xls" EmptyString) (initial Demo.env [])
           (mkFile (py "gone.xls") [])
           [(py "upload/gone.xls", [])]).
  - reflexivity.
  - discriminate.
  - vm_compute. reflexivity.
  - vm_compute. reflexivity.
  - vm_compute. reflexivity.
Defined.

(* ===================================================================== *)
(** ** Ask: request bodies, the trimmed question, the answer *)
(* ===================================================================== *)

(** X8: with a document stored, what Ask does is decided by the body.
    When [request.json] raises, that exception leaves the handler.  A body
    that is a JSON object whose question is absent or a string is answered
    with 200 or 400 and the store untouched.  Any other body (not an
    object, or a question that is not a string) makes the handler raise
    with the state untouched, which Flask reports as 500. *)
Theorem ask_question_by_body (E : Externals) (request : AskRequest)
    (st : St E) :
  document_text (globals st) <> [] ->
  match request_json request with
  | Raise e => ask_question E request st = (Raise e, st)
  | Ok v =>
      if usable_body v then
        exists resp st',
          ask_question E request st = (Ok resp, st') /\
          globals st' = globals st /\
          (status resp = 200 \/ status resp = 400)
      else
        exists msg,
          ask_question E request st = (Raise (Exception msg), st) /\
          http_status (fst (ask_question E request st)) = 500
  end.
Proof.
  intros Htext.
  pose proof (ask_question_globals E request st) as Hglobals.
  apply truthy_true in Htext.
  unfold ask_question, data_get_question, value_strip in *. unfold_monad.
  rewrite Htext in *. simpl in *.
  destruct (request_json request) as [v|e]; [|done].
  destruct v as [| | | | |l|d]; simpl; try (by eexists).
  destruct (dict_get (py "question") d) as [[| | | |q| |]|]; simpl in *;
    try (by eexists).
  - destruct (truthy (strip q)); simpl in *; [|by eauto 10].
    destruct (query_gpt4_total E (strip q) (document_text (globals st)) st)
      as (answer & st' & Hrun).
    rewrite Hrun in *. simpl in *. eauto 10.
  - change (strip []) with (@nil pychar). simpl. eauto 10.
Qed.

Lemma ask_question_by_body_witness :
  let st := Demo.holding "q1.docx" "Revenue: 100" in
  http_status
    (fst (ask_question Demo.env
            (mkAsk (Ok (JObj [(py "question", JInt 7)]))) st))
  = 500
  /\ snd (ask_question Demo.env (mkAsk (Ok (JArr []))) st) = st.
Proof.
  intros st. split.
  - pose proof (ask_question_by_body Demo.env
                  (mkAsk (Ok (JObj [(py "question", JInt 7)]))) st)
      as H.
    simpl in H. destruct H as (msg & _ & Hstatus); [discriminate|].
    exact Hstatus.
  - pose proof (ask_question_by_body Demo.env (mkAsk (Ok (JArr []))) st) as H.
    simpl in H. destruct H as (msg & Hrun & _); [discriminate|].
    by rewrite Hrun.
Defined.

(** The exceptions carry Python's own text. *)
Example ask_question_attribute_errors :
  let st := Demo.holding "q1.docx" "Revenue: 100" in
  fst (ask_question Demo.env (mkAsk (Ok JNull)) st)
  = Raise (Exception (py "'NoneType' object has no attribute 'get'"))
  /\ fst (ask_question Demo.env
            (mkAsk (Ok (JObj [(py "question", JInt 7)]))) st)
     = Raise (Exception (py "'int' object has no attribute 'strip'")).
Proof. vm_compute. split; reflexivity. Qed.

(** X9: with a document stored and a question that is not blank, when the
    client can be built and the service returns a response with at least
    one choice, Ask is answered 200 with the trimmed question and the
    content of the first choice ([null] when it has none).  The handler
    has made exactly one call to [client.chat.completions.create], with the
    prompt built from the trimmed question and the stored text, and the
    store is untouched.  (How often the client library transmits that call
    is not part of the program.) *)
Theorem ask_question_answered (E : Externals) (request : AskRequest)
    (st : St E) (d : list (pystr * json)) (q : pystr) (client : Client E)
    (response : ChatCompletion) (w' : World E) (c : Choice)
    (rest : list Choice) :
  document_text (globals st) <> [] ->
  request_json request = Ok (JObj d) ->
  dict_get (py "question") d = Some (JStr q) ->
  strip q <> [] ->
  make_client E = Ok client ->
  chat_completions_create E client
    (completion_call E (strip q) (document_text (globals st))) (world st)
  = (Ok response, w') ->
  choices response = c :: rest ->
  ask_question E request st
  = (Ok (answered (strip q)
           (match message_content c with
            | Some s => JStr s
            | None => JNull
            end)),
     mkSt (globals st) w'
       (sent st ++ [completion_call E (strip q) (document_text (globals st))])).
Proof.
  intros Htext Hjson Hq Hstrip Hclient Hcall Hchoices.
  destruct (ask_question_run E request st d q Htext Hjson Hq Hstrip)
    as (answer & st' & Hquery & ->).
  revert Hquery.
  unfold query_gpt4, completions_create, make_client, completion_call in *.
  unfold_monad. rewrite Hclient, Hcall. simpl. rewrite Hchoices.
  by intros [= <- <-].
Qed.

Lemma ask_question_answered_witness :
  let st := @mkSt Demo.env_answering
              (mkGlobals (py "q1.docx") (py "Revenue: 100")) [] [] in
  let out := ask_question Demo.env_answering (Demo.ask " Total? ") st in
  fst out
  = Ok (answered (py "Total?")
          (JStr (py "Document: Revenue: 100..." ++ [nl; nl]
                   ++ py "Question: Total?")))
  /\ length (sent (snd out)) = 1%nat.
Proof.
  intros st out. unfold out.
  rewrite (ask_question_answered Demo.env_answering (Demo.ask " Total? ") st
             [(py "question", JStr (py " Total? "))] (py " Total? ") tt
             (mkCompletion
                [mkChoice (Some (py "Document: Revenue: 100..." ++ [nl; nl]
                                   ++ py "Question: Total?"))])
             [] (mkChoice (Some (py "Document: Revenue: 100..." ++ [nl; nl]
                                   ++ py "Question: Total?"))) []).
  - split; reflexivity.
  - discriminate.
  - reflexivity.
  - reflexivity.
  - vm_compute. discriminate.
  - reflexivity.
  - vm_compute. reflexivity.
  - reflexivity.
Defined.

(* --------------------------------------------------------------------- *)
(** Trimming *)

Lemma lstrip_split (s : pystr) :
  exists l, s = l ++ lstrip s /\ readable l = false.
Proof.
  induction s as [|c s (l & Hs & Hl)]; [by exists []|]. cbn [lstrip].
  destruct (isspace c) eqn:Hc.
  - exists (c :: l). split; [simpl; by rewrite <- Hs|].
    by rewrite readable_cons, Hc, Hl.
  - by exists [].
Qed.

Lemma lstrip_head (s t : pystr) (c : pychar) :
  lstrip s = c :: t -> isspace c = false.
Proof.
  induction s as [|d s IH]; [done|]. cbn [lstrip].
  destruct (isspace d) eqn:Hd; [done|]. by intros [= <- _].
Qed.

Lemma lstrip_id (c : pychar) (s : pystr) :
  isspace c = false -> lstrip (c :: s) = c :: s.
Proof. intros Hc. simpl. by rewrite Hc. Qed.

(** What [strip] removes is whitespace on both sides, and what it leaves
    begins and ends with a character that is not whitespace. *)
Lemma strip_split (s : pystr) :
  exists l r,
    s = l ++ strip s ++ r /\ readable l = false /\ readable r = false /\
    (strip s <> [] ->
     exists c t c', strip s = c :: t /\ last (strip s) = Some c' /\
                    isspace c = false /\ isspace c' = false).
Proof.
  unfold strip, rstrip.
  destruct (lstrip_split (rev s)) as (r & Hr & Hr').
  destruct (lstrip_split (rev (lstrip (rev s)))) as (l & Hl & Hl').
  exists l, (rev r). split; [|split; [done|split; [by rewrite readable_rev|]]].
  - rewrite app_assoc, <- Hl, <- rev_app_distr, <- Hr. by rewrite rev_involutive.
  - intros Hne.
    destruct (lstrip (rev (lstrip (rev s)))) as [|c t] eqn:Hstrip; [done|].
    destruct (lstrip (rev s)) as [|c' u] eqn:Hinner.
    { simpl in Hstrip. done. }
    exists c, t, c'. split; [done|].
    pose proof (lstrip_head _ _ _ Hinner) as Hc'.
    pose proof (lstrip_head _ _ _ Hstrip) as Hc.
    split; [|done].
    assert (last (rev (c' :: u)) = Some c') as Hlast
      by (simpl; apply last_snoc).
    rewrite Hl in Hlast. rewrite last_app in Hlast.
    destruct (last (c :: t)) eqn:Hlast'; [done|].
    by apply last_None in Hlast'.
Qed.

Lemma strip_idempotent (s : pystr) : strip (strip s) = strip s.
Proof.
  destruct (strip_split s) as (l & r & _ & _ & _ & Hends).
  destruct (strip s) as [|c t] eqn:Hs; [done|].
  destruct Hends as (c0 & t0 & c' & [= <- <-] & Hlast & Hc & Hc'); [done|].
  apply last_Some in Hlast as [u Hu].
  assert (rev (c :: t) = c' :: rev u) as Hrev
    by (by rewrite Hu, rev_app_distr).
  unfold strip, rstrip.
  rewrite Hrev, (lstrip_id c' _ Hc'), <- Hrev, rev_involutive.
  by apply lstrip_id.
Qed.

(** X10: the question Ask echoes and sends on is the body's question
    without the whitespace around it: the body's question is that string
    between two runs of whitespace, it begins and ends with a character
    that is not whitespace, and trimming it again changes nothing. *)
Theorem ask_question_trims (E : Externals) (request : AskRequest) (st : St E)
    (d : list (pystr * json)) (q : pystr) :
  document_text (globals st) <> [] ->
  request_json request = Ok (JObj d) ->
  dict_get (py "question") d = Some (JStr q) ->
  strip q <> [] ->
  exists q' answer st' l r c t c',
    ask_question E request st = (Ok (answered q' answer), st') /\
    q = l ++ q' ++ r /\ readable l = false /\ readable r = false /\
    q' = c :: t /\ last q' = Some c' /\
    isspace c = false /\ isspace c' = false /\
    strip q' = q'.
Proof.
  intros Htext Hjson Hq Hstrip.
  destruct (ask_question_run E request st d q Htext Hjson Hq Hstrip)
    as (answer & st' & _ & Hask).
  destruct (strip_split q) as (l & r & Hsplit & Hl & Hr & Hends).
  destruct (Hends Hstrip) as (c & t & c' & Hhead & Hlast & Hc & Hc').
  exists (strip q), answer, st', l, r, c, t, c'.
  repeat split; try done. apply strip_idempotent.
Qed.

Lemma ask_question_trims_witness :
  let st := Demo.holding "q1.docx" "Revenue: 100" in
  exists q' answer st' l r c t c',
    ask_question Demo.env (Demo.ask "  Total? ") st
    = (Ok (answered q' answer), st') /\
    py "  Total? " = l ++ q' ++ r /\ readable l = false /\ readable r = false /\
    q' = c :: t /\ last q' = Some c' /\
    isspace c = false /\ isspace c' = false /\
    strip q' = q'.
Proof.
  intros st.
  apply (ask_question_trims Demo.env (Demo.ask "  Total? ") st
           [(py "question", JStr (py "  Total? "))]).
  - discriminate.
  - reflexivity.
  - reflexivity.
  - vm_compute. discriminate.
Defined.

(* ===================================================================== *)
(** ** Runs of requests *)
(* ===================================================================== *)

Lemma extract_text_sent (E : Externals) (file_path : pystr) (st : St E) :
  sent (snd (extract_text E file_path st)) = sent st.
Proof.
  unfold extract_text. repeat case_match.
  - by rewrite extract_text_from_pdf_eq.
  - by rewrite extract_text_from_docx_eq.
  - unfold extract_text_from_csv. unfold_monad.
    destruct (pd_read_csv E file_path (world st)) as [[df|e] w];
      [destruct (df_to_string E df false)|]; done.
  - unfold extract_text_from_excel. unfold_monad.
    destruct (pd_read_excel E file_path (world st)) as [[df|e] w];
      [destruct (df_to_string E df false)|]; done.
  - done.
Qed.

Lemma upload_file_sent (E : Externals) (request : UploadRequest) (st : St E) :
  sent (snd (upload_file E request st)) = sent st.
Proof.
  destruct (dict_get (py "file") (files request)) as [file|] eqn:Hfile;
    [destruct (truthy (filename file)) eqn:Hname|].
  - rewrite (upload_file_run E request st file Hfile)
      by (by apply truthy_true).
    destruct (file_save E file (upload_path E file) (world st))
      as [[[]|e] w]; [|done].
    pose proof (extract_text_sent E (upload_path E file)
                  (after_save E file st w)) as Hsent.
    destruct (extract_text E (upload_path E file) (after_save E file st w))
      as [[text|e] st1]; simpl in *; done.
  - unfold upload_file. by rewrite Hfile, Hname.
  - unfold upload_file. by rewrite Hfile.
Qed.

Lemma query_gpt4_sent (E : Externals) (question context : pystr) (st : St E) :
  exists extra,
    sent (snd (query_gpt4 E question context st)) = sent st ++ extra
    /\ (length extra <= 1)%nat.
Proof.
  unfold query_gpt4, completions_create. unfold_monad.
  destruct (AzureOpenAI E _ _ _) as [client|e].
  - destruct (chat_completions_create E client _ _) as [[response|e] w];
      [destruct (choices response)|]; simpl;
      (eexists [_]; split; [reflexivity | simpl; lia]).
  - exists []. simpl. rewrite app_nil_r. split; [done | lia].
Qed.

Lemma handle_sent (E : Externals) (r : Request) (st : St E) :
  exists extra,
    sent (snd (handle E r st)) = sent st ++ extra
    /\ (length extra <= if is_ask r then 1 else 0)%nat.
Proof.
  destruct r as [request| |request]; simpl.
  - exists []. rewrite upload_file_sent, app_nil_r. split; [done | simpl; lia].
  - exists []. rewrite process_file_state, app_nil_r.
    split; [done | simpl; lia].
  - unfold ask_question, data_get_question, value_strip. unfold_monad.
    repeat (case_match; simplify_eq/=);
      try (exists []; rewrite app_nil_r; split; [done | simpl; lia]).
    all: match goal with
         | H : query_gpt4 _ ?q ?c ?st = (_, ?st') |- _ =>
             destruct (query_gpt4_sent _ q c st) as (extra & Hs & Hlen);
             rewrite H in Hs; by exists extra
         end.
Qed.

(** X11: over any run of requests the program calls
    [client.chat.completions.create] at most once for each Ask served and
    never for an Upload or an Analyze; earlier calls stay in the log as
    they were.  The program itself has no retry loop (how often the client
    library transmits one call is not counted). *)
Theorem completion_requests_bounded (E : Externals) (rs : list Request)
    (st : St E) :
  sent st `prefix_of` sent (snd (serve E rs st)) /\
  (length (sent (snd (serve E rs st)))
   <= length (sent st) + length (filter is_ask rs))%nat /\
  (forallb (fun r => negb (is_ask r)) rs = true ->
   sent (snd (serve E rs st)) = sent st).
Proof.
  revert st. induction rs as [|r rs IH]; intros st.
  - simpl. split; [done|]. split; [lia|done].
  - rewrite serve_cons.
    destruct (IH (snd (handle E r st))) as (Hpre & Hlen & Hnone).
    destruct (handle_sent E r st) as (extra & Hs & Hextra).
    rewrite Hs in *. split; [|split].
    + etrans; [|exact Hpre]. by apply prefix_app_r.
    + rewrite length_app in Hlen. rewrite filter_cons.
      destruct r; simpl in *; lia.
    + simpl. intros [Hr Hrs]%andb_true_iff.
      rewrite (Hnone Hrs). destruct r; simpl in *; try done;
        destruct extra; simpl in *; try lia; by rewrite app_nil_r.
Qed.

Lemma completion_requests_bounded_witness :
  let st := @mkSt Demo.env_answering
              (mkGlobals (py "q1.docx") (py "Revenue: 100")) [] [] in
  let quiet := [POST_process;
                POST_upload (Demo.upload "q2.docx" "Costs: 7")] in
  let asking := [POST_ask (Demo.ask "Total?"); POST_ask (Demo.ask "  ");
                 POST_process; POST_ask (Demo.ask "Costs?")] in
  sent (snd (serve Demo.env_answering quiet st)) = [] /\
  (length (sent (snd (serve Demo.env_answering asking st))) <= 3)%nat.
Proof.
  intros st quiet asking. split.
  - destruct (completion_requests_bounded Demo.env_answering quiet st)
      as (_ & _ & Hnone).
    apply Hnone. reflexivity.
  - destruct (completion_requests_bounded Demo.env_answering asking st)
      as (_ & Hlen & _).
    exact Hlen.
Defined.

Example completion_requests_in_a_run :
  length (sent (snd (serve Demo.env_answering
                       [POST_ask (Demo.ask "Too early?");
                        POST_upload (Demo.upload "q1.docx" "Revenue: 100");
                        POST_process;
                        POST_ask (Demo.ask "Total?");
                        POST_ask (Demo.ask "  ");
                        POST_ask (Demo.ask "Costs?")]
                       (initial Demo.env_answering []))))
  = 2%nat.
Proof. vm_compute. reflexivity. Qed.

(** X12: only Upload writes the Document Store: a run without uploads,
    however many Analyze and Ask requests it holds and whatever they
    carry, leaves both fields as they were. *)
Theorem store_written_only_by_upload (E : Externals) (rs : list Request)
    (st : St E) :
  forallb (fun r => negb (is_upload r)) rs = true ->
  globals (snd (serve E rs st)) = globals st.
Proof.
  revert st. induction rs as [|r rs IH]; intros st Hrs; [done|].
  simpl in Hrs. apply andb_true_iff in Hrs as [Hr Hrs].
  rewrite serve_cons, IH by done.
  destruct r; [done| |]; simpl.
  - by rewrite process_file_state.
  - by rewrite ask_question_globals.
Qed.

Lemma store_written_only_by_upload_witness :
  let st := @mkSt Demo.env_answering
              (mkGlobals (py "q1.docx") (py "Revenue: 100")) [] [] in
  globals (snd (serve Demo.env_answering
                  [POST_process; POST_ask (Demo.ask "Total?");
                   POST_ask (mkAsk (Ok JNull)); POST_process] st))
  = mkGlobals (py "q1.docx") (py "Revenue: 100").
Proof.
  intros st.
  apply (store_written_only_by_upload Demo.env_answering
           [POST_process; POST_ask (Demo.ask "Total?");
            POST_ask (mkAsk (Ok JNull)); POST_process] st).
  reflexivity.
Defined.

(* --------------------------------------------------------------------- *)
(** The stored file name is never read *)

Lemma handle_same_but_name (E : Externals) (r : Request) (st1 st2 : St E) :
  same_but_name st1 st2 ->
  fst (handle E r st1) = fst (handle E r st2) /\
  same_but_name (snd (handle E r st1)) (snd (handle E r st2)).
Proof.
  destruct st1 as [[n1 t1] w1 s1], st2 as [[n2 t2] w2 s2].
  intros (Ht & Hw & Hs). simpl in Ht, Hw, Hs. subst t2 w2 s2.
  destruct r as [request| |request]; simpl.
  - destruct (dict_get (py "file") (files request)) as [file|] eqn:Hfile;
      [destruct (truthy (filename file)) eqn:Hname|].
    + rewrite !(upload_file_run E request _ file Hfile)
        by (by apply truthy_true).
      simpl. destruct (file_save E file (upload_path E file) w1)
        as [[[]|e] w]; [|done].
      unfold after_save. simpl.
      by destruct (extract_text E (upload_path E file) _) as [[text|e] st'].
    + unfold upload_file. by rewrite Hfile, Hname.
    + unfold upload_file. by rewrite Hfile.
  - unfold process_file. unfold_monad. simpl. by destruct (truthy t1).
  - unfold ask_question, data_get_question, value_strip. unfold_monad. simpl.
    destruct (truthy t1); [|done]. simpl.
    destruct (request_json request) as [v|e]; [|done].
    destruct v as [| | | | |l|d]; try done. simpl.
    destruct (dict_get (py "question") d) as [[| | | |q| |]|]; try done; simpl.
    destruct (truthy (strip q)); [|done]. simpl.
    destruct (blind_query_gpt4 E (strip q) t1 w1 s1) as (r & w' & s' & Hrun).
    rewrite !Hrun. by destruct r.
Qed.

Lemma serve_same_but_name (E : Externals) (rs : list Request) (st1 st2 : St E) :
  same_but_name st1 st2 ->
  fst (serve E rs st1) = fst (serve E rs st2) /\
  same_but_name (snd (serve E rs st1)) (snd (serve E rs st2)).
Proof.
  revert st1 st2. induction rs as [|r rs IH]; intros st1 st2 Hsame; [done|].
  destruct (handle_same_but_name E r st1 st2 Hsame) as [Hout Hnext].
  destruct (IH _ _ Hnext) as [Houts Hlast].
  simpl.
  destruct (handle E r st1) as [o1 n1], (handle E r st2) as [o2 n2].
  simpl in *.
  destruct (serve E rs n1) as [os1 l1], (serve E rs n2) as [os2 l2].
  simpl in *. by subst.
Qed.

(** X13: no handler reads [uploaded_filename].  Started with any other
    file name in the store, a run of requests gets the same responses,
    reaches the same stored text and world, and sends the same completion
    requests. *)
Theorem uploaded_filename_never_read (E : Externals) (rs : list Request)
    (st : St E) (n : pystr) :
  fst (serve E rs (with_name n st)) = fst (serve E rs st) /\
  same_but_name (snd (serve E rs (with_name n st))) (snd (serve E rs st)).
Proof. apply serve_same_but_name. by destruct st. Qed.

(* ===================================================================== *)
(** ** Uploads and what Analyze and Ask then see *)
(* ===================================================================== *)


Lemma token_starts_zero (s : pystr) :
  token_starts true s = 0%nat <-> readable s = false.
Proof.
  induction s as [|c s IH]; [done|]. rewrite readable_cons. simpl.
  destruct (isspace c); simpl; [done|]. split; [lia|done].
Qed.




Lemma process_file_empty (E : Externals) (st : St E) :
  document_text (globals st) = [] ->
  process_file E st = (Ok no_document, st).
Proof. intros Htext. unfold process_file. unfold_monad. by rewrite Htext. Qed.

Lemma ask_question_empty (E : Externals) (request : AskRequest) (st : St E) :
  document_text (globals st) = [] ->
  ask_question E request st = (Ok no_document, st).
Proof. intros Htext. unfold ask_question. unfold_monad. by rewrite Htext. Qed.

(** X15: an upload whose sanitized name has none of the supported endings
    clears the document: once the file is saved the upload is answered 400
    "no readable content", the stored text is empty whatever was stored
    before, and Analyze and Ask are then answered "No document analyzed
    yet". *)
Theorem unsupported_upload_clears_document (E : Externals)
    (request : UploadRequest) (st : St E) (file : FileStorage) (w : World E) :
  dict_get (py "file") (files request) = Some file ->
  filename file <> [] ->
  file_save E file (upload_path E file) (world st) = (Ok tt, w) ->
  (forall x, x ∈ SUPPORTED -> endswith (upload_name E file) x = false) ->
  let st' := mkSt (mkGlobals (upload_name E file) []) w (sent st) in
  upload_file E request st = (Ok upload_unreadable, st') /\
  process_file E st' = (Ok no_document, st') /\
  forall ask, ask_question E ask st' = (Ok no_document, st').
Proof.
  intros Hfile Hname Hsave Hno st'. split; [|split].
  - rewrite (upload_file_run E request st file Hfile Hname), Hsave.
    rewrite extract_text_unsupported; [done|].
    intros x Hx. unfold upload_path.
    rewrite endswith_upload_folder by done. by apply Hno.
  - by apply process_file_empty.
  - intros ask. by apply ask_question_empty.
Qed.

Lemma unsupported_upload_clears_document_witness :
  let st := Demo.holding "q1.docx" "Revenue: 100" in
  let st' := @mkSt Demo.env (mkGlobals (py "notes.txt") [])
               [(py "upload/notes.txt", list_byte_of_string "plain")] [] in
  upload_file Demo.env (Demo.upload "notes.txt" "plain") st
  = (Ok upload_unreadable, st')
  /\ process_file Demo.env st' = (Ok no_document, st').
Proof.
  intros st st'.
  destruct (unsupported_upload_clears_document Demo.env
              (Demo.upload "notes.txt" "plain") st
              (mkFile (py "notes.txt") (list_byte_of_string "plain"))
              [(py "upload/notes.txt", list_byte_of_string "plain")])
    as (Hupload & Hprocess & _).
  - reflexivity.
  - discriminate.
  - vm_compute. reflexivity.
  - intros x Hx. unfold SUPPORTED in Hx.
    rewrite !elem_of_cons, elem_of_nil in Hx.
    destruct Hx as [->|[->|[->|[->|[->|[]]]]]]; vm_compute; reflexivity.
  - split; [exact Hupload | exact Hprocess].
Defined.

(** What a 500 from [upload_file] tells about the run. *)
Lemma upload_file_500 (E : Externals) (request : UploadRequest) (st st' : St E)
    (resp : Response) :
  upload_file E request st = (Ok resp, st') ->
  status resp = 500 ->
  exists e,
    upload_exception E request st = Some e /\
    resp = upload_failed e /\
    document_text (globals st') = document_text (globals st) /\
    sent st' = sent st.
Proof.
  intros Hrun Hstatus.
  pose proof (upload_file_sent E request st) as Hsent.
  rewrite Hrun in Hsent. simpl in Hsent.
  unfold upload_exception.
  destruct (dict_get (py "file") (files request)) as [file|] eqn:Hfile;
    [destruct (truthy (filename file)) eqn:Hname|].
  - rewrite (upload_file_run E request st file Hfile) in Hrun
      by (by apply truthy_true).
    destruct (file_save E file (upload_path E file) (world st))
      as [[[]|e] w]; [|inversion Hrun; subst; by exists e].
    destruct (blind_run (extract_text E (upload_path E file))
                (after_save E file st w) (blind_extract_text E _))
      as (r & w' & s' & Hextract & _).
    rewrite Hextract in *. simpl. destruct r as [text|e].
    + destruct (truthy (strip text));
        inversion Hrun; subst; discriminate Hstatus.
    + inversion Hrun; subst. by exists e.
  - unfold upload_file in Hrun. rewrite Hfile, Hname in Hrun.
    inversion Hrun; subst; discriminate Hstatus.
  - unfold upload_file in Hrun. rewrite Hfile in Hrun.
    inversion Hrun; subst; discriminate Hstatus.
Qed.

(** X16: an upload is answered 500 exactly when saving the file or
    extracting its text raised; the [error] field then holds the text of
    that very exception.  The stored text is left as it was, so Analyze
    gives the same answer after it as before it, and no call to the
    completion client is made. *)
Theorem failed_upload_keeps_text (E : Externals) (request : UploadRequest)
    (st st' : St E) (resp : Response) :
  upload_file E request st = (Ok resp, st') ->
  (status resp = 500 <-> upload_exception E request st <> None) /\
  (status resp = 500 ->
   (exists e,
      upload_exception E request st = Some e /\
      body resp = [(py "message", JStr (py "File upload failed"));
                   (py "error", JStr (exn_str e))]) /\
   document_text (globals st') = document_text (globals st) /\
   fst (process_file E st') = fst (process_file E st) /\
   sent st' = sent st).
Proof.
  intros Hrun. split; [split|].
  - intros Hstatus.
    destruct (upload_file_500 E request st st' resp Hrun Hstatus)
      as (e & -> & _). done.
  - unfold upload_exception.
    destruct (dict_get (py "file") (files request)) as [file|] eqn:Hfile;
      [destruct (truthy (filename file)) eqn:Hname|]; [|done..].
    rewrite (upload_file_run E request st file Hfile) in Hrun
      by (by apply truthy_true).
    destruct (file_save E file (upload_path E file) (world st))
      as [[[]|e] w]; [|by inversion Hrun].
    destruct (extract_text E (upload_path E file) (after_save E file st w))
      as [[text|e] st1]; simpl; [done|]. by inversion Hrun.
  - intros Hstatus.
    destruct (upload_file_500 E request st st' resp Hrun Hstatus)
      as (e & Hexn & -> & Htext & Hsent).
    split; [by exists e|]. split; [done|]. split; [|done].
    unfold process_file. unfold_monad. rewrite Htext.
    by destruct (truthy (document_text (globals st))).
Qed.

Lemma failed_upload_keeps_text_witness :
  let st := Demo.holding "q1.docx" "Revenue: 100" in
  let request := mkUpload [(py "file", mkFile (py "/") [])] in
  let out := upload_file Demo.env request st in
  http_status (fst out) = 500 /\
  upload_exception Demo.env request st = Some (Exception (py "Is a directory"))
  /\
  (exists e,
     upload_exception Demo.env request st = Some e /\
     body (upload_failed (Exception (py "Is a directory")))
     = [(py "message", JStr (py "File upload failed"));
        (py "error", JStr (exn_str e))]) /\
  document_text (globals (snd out)) = py "Revenue: 100" /\
  fst (process_file Demo.env (snd out)) = fst (process_file Demo.env st).
Proof.
  intros st request out.
  destruct (failed_upload_keeps_text Demo.env request st (snd out)
              (upload_failed (Exception (py "Is a directory"))))
    as (_ & Hfailed).
  - vm_compute. reflexivity.
  - destruct Hfailed as (Hbody & Htext & Hprocess & _); [reflexivity|].
    split; [reflexivity|]. split; [vm_compute; reflexivity|].
    split; [exact Hbody|]. split; [exact Htext | exact Hprocess].
Defined.

(** What the answer "no readable content" tells about the run. *)
Lemma upload_file_unreadable (E : Externals) (request : UploadRequest)
    (st st' : St E) :
  upload_file E request st = (Ok upload_unreadable, st') ->
  exists file text,
    dict_get (py "file") (files request) = Some file /\
    extracted_text E request st = Some text /\
    readable text = false /\
    globals st' = mkGlobals (upload_name E file) text.
Proof.
  intros Hrun. unfold extracted_text.
  destruct (dict_get (py "file") (files request)) as [file|] eqn:Hfile;
    [destruct (truthy (filename file)) eqn:Hname|].
  - rewrite (upload_file_run E request st file Hfile) in Hrun
      by (by apply truthy_true).
    destruct (file_save E file (upload_path E file) (world st))
      as [[[]|e] w]; [|inversion Hrun].
    destruct (extract_text E (upload_path E file) (after_save E file st w))
      as [[text|e] st2]; [|inversion Hrun].
    simpl. destruct (truthy (strip text)) eqn:Hstrip; [inversion Hrun|].
    inversion Hrun; subst. exists file, text.
    by rewrite <- strip_readable.
  - unfold upload_file in Hrun. rewrite Hfile, Hname in Hrun.
    vm_compute in Hrun. inversion Hrun.
  - unfold upload_file in Hrun. rewrite Hfile in Hrun.
    vm_compute in Hrun. inversion Hrun.
Qed.

(** X17: when an upload is answered 400 "no readable content" the text it
    extracted is stored all the same; it has no character that is not
    whitespace, and unless it is empty Analyze answers 200 for it with a
    word count of 0 and Ask no longer answers "No document analyzed
    yet". *)
Theorem unreadable_upload_is_analyzed (E : Externals) (request : UploadRequest)
    (st st' : St E) :
  upload_file E request st = (Ok upload_unreadable, st') ->
  readable (document_text (globals st')) = false /\
  extracted_text E request st = Some (document_text (globals st')) /\
  (document_text (globals st') <> [] ->
   process_file E st'
   = (Ok (jsonify
            [(py "message", JStr (py "Analysis successful! Word count: 0"));
             (py "content", JStr (take 500 (document_text (globals st'))))]
            200), st') /\
   forall ask, fst (ask_question E ask st') <> Ok no_document).
Proof.
  intros Hrun.
  destruct (upload_file_unreadable E request st st' Hrun)
    as (file & text & _ & Hextracted & Hread & Hstore).
  rewrite Hstore. simpl. split; [done|]. split; [done|].
  intros Hne. split.
  - rewrite process_file_run by (by rewrite Hstore).
    rewrite Hstore. simpl. unfold analysis, token_count.
    by rewrite (proj2 (token_starts_zero text) Hread).
  - intros ask.
    apply truthy_true in Hne.
    unfold ask_question, data_get_question, value_strip. unfold_monad.
    rewrite Hstore. simpl. rewrite Hne. simpl.
    destruct (request_json ask) as [v|e]; [|done].
    destruct v as [| | | | |l|d]; try done. simpl.
    destruct (dict_get (py "question") d) as [[| | | |q| |]|]; try done; simpl.
    destruct (truthy (strip q)); simpl.
    + destruct (query_gpt4 E (strip q) text _) as [[answer|e] st2]; [|done].
      simpl. intros Heq. vm_compute in Heq. discriminate Heq.
    + intros Heq. vm_compute in Heq. discriminate Heq.
Qed.

Lemma unreadable_upload_is_analyzed_witness :
  let st' := snd (upload_file Demo.env (Demo.upload "scan.pdf" EmptyString)
                    (initial Demo.env [])) in
  fst (process_file Demo.env st')
  = Ok (jsonify
          [(py "message", JStr (py "Analysis successful! Word count: 0"));
           (py "content", JStr [nl])] 200).
Proof.
  intros st'.
  destruct (unreadable_upload_is_analyzed Demo.env
              (Demo.upload "scan.pdf" EmptyString) (initial Demo.env []) st')
    as (_ & _ & Hafter).
  - vm_compute. reflexivity.
  - destruct Hafter as [Hprocess _]; [vm_compute; discriminate|].
    by rewrite Hprocess.
Defined.

(** X18: Analyze answers 400 "No document analyzed yet" exactly when the
    stored text is empty, and the state is then as before.  This is so in
    a fresh process and stays so for as long as no upload has extracted a
    non-empty text. *)
Theorem analyze_without_document (E : Externals) (w : World E)
    (rs : list Request) :
  extracts_nothing E rs (initial E w) = true ->
  let st := snd (serve E rs (initial E w)) in
  process_file E st = (Ok no_document, st) /\
  forall st0 : St E,
    fst (process_file E st0) = Ok no_document
    <-> document_text (globals st0) = [].
Proof.
  intros Hquiet st. split.
  - apply process_file_empty. by apply serve_text_empty.
  - intros st0. split.
    + intros Hrun. destruct (document_text (globals st0)) eqn:Htext; [done|].
      rewrite process_file_run in Hrun by (by rewrite Htext).
      simpl in Hrun. inversion Hrun.
    + intros Htext. by rewrite process_file_empty.
Qed.

Lemma analyze_without_document_witness :
  let rs := [POST_process;
             POST_upload (Demo.upload "notes.txt" "plain text");
             POST_ask (Demo.ask "What is the revenue?")] in
  let st := snd (serve Demo.env rs (initial Demo.env [])) in
  process_file Demo.env st = (Ok no_document, st).
Proof.
  intros rs st.
  apply (analyze_without_document Demo.env [] rs). vm_compute. reflexivity.
Defined.

(** X19: an upload is turned away before anything is saved in exactly two
    cases.  It is answered "No file uploaded" exactly when the request has
    no part named [file], and "No selected file" exactly when that part has
    an empty file name; both answers are 400 and leave the state, disk
    included, as it was. *)
Theorem upload_turned_away (E : Externals) (request : UploadRequest)
    (st : St E) :
  let no_file := jsonify [(py "message", JStr (py "No file uploaded"))] 400 in
  let no_name := jsonify [(py "message", JStr (py "No selected file"))] 400 in
  (fst (upload_file E request st) = Ok no_file
   <-> dict_get (py "file") (files request) = None) /\
  (fst (upload_file E request st) = Ok no_name
   <-> exists file, dict_get (py "file") (files request) = Some file
                    /\ filename file = []) /\
  (fst (upload_file E request st) = Ok no_file
   \/ fst (upload_file E request st) = Ok no_name ->
   snd (upload_file E request st) = st).
Proof.
  intros no_file no_name.
  destruct (dict_get (py "file") (files request)) as [file|] eqn:Hfile;
    [destruct (truthy (filename file)) eqn:Hname|].
  - rewrite (upload_file_run E request st file Hfile)
      by (by apply truthy_true).
    assert (exists resp st',
              match file_save E file (upload_path E file) (world st) with
              | (Raise e, w) =>
                  (Ok (upload_failed e), mkSt (globals st) w (sent st))
              | (Ok _, w) =>
                  match extract_text E (upload_path E file)
                          (after_save E file st w) with
                  | (Raise e, st') => (Ok (upload_failed e), st')
                  | (Ok text, st') =>
                      (Ok (if truthy (strip text) then upload_succeeded
                           else upload_unreadable),
                       mkSt (mkGlobals (upload_name E file) text)
                         (world st') (sent st'))
                  end
              end = (Ok resp, st')
              /\ resp <> no_file /\ resp <> no_name)
      as (resp & st' & -> & H1 & H2).
    { destruct (file_save E file (upload_path E file) (world st))
        as [[[]|e] w]; [|by eexists _, _].
      destruct (extract_text E (upload_path E file) (after_save E file st w))
        as [[text|e] st1]; [|by eexists _, _].
      destruct (truthy (strip text)); eexists _, _;
        (split; [done|]); split; intros Heq; vm_compute in Heq;
        discriminate Heq. }
    simpl. split; [|split].
    + split; [by intros [= ?]|done].
    + split; [by intros [= ?]|].
      intros (f & [= <-] & Hempty). apply truthy_true in Hname. done.
    + intros [[= ?]|[= ?]]; done.
  - unfold upload_file. rewrite Hfile, Hname. simpl.
    apply truthy_false_nil in Hname.
    split; [|split; [|done]].
    + split; [|done]. intros Heq. vm_compute in Heq. discriminate Heq.
    + split; [|done]. intros _. by exists file.
  - unfold upload_file. rewrite Hfile. simpl.
    split; [done|]. split; [|done].
    split; [|by intros (f & ? & _)].
    intros Heq. vm_compute in Heq. discriminate Heq.
Qed.

Lemma upload_turned_away_witness :
  let st := Demo.holding "q1.docx" "Revenue: 100" in
  let request := mkUpload [(py "document", mkFile (py "a.pdf") [])] in
  fst (upload_file Demo.env request st)
  = Ok (jsonify [(py "message", JStr (py "No file uploaded"))] 400)
  /\ snd (upload_file Demo.env request st) = st.
Proof.
  intros st request.
  destruct (upload_turned_away Demo.env request st) as ([_ Hno] & _ & Hst).
  assert (fst (upload_file Demo.env request st)
          = Ok (jsonify [(py "message", JStr (py "No file uploaded"))] 400))
    as Hout by (apply Hno; reflexivity).
  split; [exact Hout|]. apply Hst. left. exact Hout.
Defined.
